(** * Deteksi Produk Israel: the dashboard's client-side logic

    A shallow embedding of the TypeScript sources of the dashboard
    ([lib/utils.ts], [lib/types.ts], [lib/api.ts], the page component and
    the three display components) together with the properties stated for
    them.

    Conventions.
    - A JavaScript [number] is an IEEE-754 binary64 value: it is modelled by
      the primitive [float] of the kernel, whose operations are the same
      binary64 operations.
    - A JavaScript string is modelled by [string] (a list of 8-bit
      characters); the code only inspects ASCII delimiters.
    - TypeScript types are erased when the program runs: what the API client
      hands back is the parsed JSON, a [value].  The display components are
      modelled over the records their props are declared with.
    - [try]/[catch] and promises are modelled by [Outcome]: a promise that is
      awaited is identified with the way it settles.  Requests that leave
      the program go to an oracle and are recorded in a log.
    - What the engine and the browser decide (the text of a [TypeError], the
      printing of a number, the network) is gathered in [Platform]. *)

From Stdlib Require Import ZArith List String Ascii Floats Lia Bool.
From stdpp Require Import base option list strings pretty.
Import ListNotations.

Set Warnings "-inexact-float,-register-all".

Local Open Scope string_scope.
Local Open Scope list_scope.

(* ===================================================================== *)
(** * JavaScript numbers, strings and values *)
(* ===================================================================== *)

Module JsNumber.

(** [x >= y] on numbers; false as soon as one side is NaN. *)
Definition ge (x y : float) : bool := PrimFloat.leb y x.

(** [x <= y] on numbers. *)
Definition le (x y : float) : bool := PrimFloat.leb x y.

(** The closed interval [0,1] of numbers. *)
Definition in_unit_interval (c : float) : Prop :=
  le 0%float c = true /\ le c 1%float = true.

(** ToBoolean on a number: [0], [-0] and [NaN] are falsy. *)
Definition truthy (x : float) : bool :=
  negb (PrimFloat.is_zero x || PrimFloat.is_nan x).

(** The number that a list length is (lengths are below 2^32). *)
Definition of_nat (n : nat) : float :=
  PrimFloat.of_uint63 (Uint63.of_Z (Z.of_nat n)).

End JsNumber.

Module JsString.

(** [s.split(sep)] for a one-character separator: never empty. *)
Fixpoint split (sep : ascii) (s : string) : list string :=
  match s with
  | EmptyString => [EmptyString]
  | String c rest =>
      if Ascii.eqb c sep then EmptyString :: split sep rest
      else match split sep rest with
           | piece :: pieces => String c piece :: pieces
           | [] => [String c EmptyString]
           end
  end.

(** [s.replace(/_/g, ' ')]. *)
Fixpoint replace_underscores (s : string) : string :=
  match s with
  | EmptyString => EmptyString
  | String c rest =>
      String (if Ascii.eqb c "_" then " "%char else c) (replace_underscores rest)
  end.

(** The upper-case form of one ASCII character. *)
Definition upper_char (c : ascii) : ascii :=
  let n := N_of_ascii c in
  if ((97 <=? n) && (n <=? 122))%N then ascii_of_N (n - 32) else c.

(** [s.toUpperCase()] on ASCII text. *)
Fixpoint toUpperCase (s : string) : string :=
  match s with
  | EmptyString => EmptyString
  | String c rest => String (upper_char c) (toUpperCase rest)
  end.

(** The ASCII lower-case form of one character. *)
Definition lower_char (c : ascii) : ascii :=
  let n := N_of_ascii c in
  if ((65 <=? n) && (n <=? 90))%N then ascii_of_N (n + 32) else c.

(** A text with every character in ASCII lower case. *)
Fixpoint ascii_lowercase (s : string) : string :=
  match s with
  | EmptyString => EmptyString
  | String c rest => String (lower_char c) (ascii_lowercase rest)
  end.

(** The characters U+0020 to U+007E. *)
Definition is_printable (c : ascii) : bool :=
  let n := N_of_ascii c in ((32 <=? n) && (n <=? 126))%N.

(** A text of characters U+0020 to U+007E only. *)
Fixpoint all_printable (s : string) : bool :=
  match s with
  | EmptyString => true
  | String c rest => is_printable c && all_printable rest
  end.

(** [s.charCodeAt(i)]; [None] stands for NaN, past the end. *)
Fixpoint charCodeAt (s : string) (i : nat) : option N :=
  match s, i with
  | EmptyString, _ => None
  | String c _, O => Some (N_of_ascii c)
  | String _ rest, S j => charCodeAt rest j
  end.

(** The code units of a string, in order. *)
Fixpoint codes (s : string) : list N :=
  match s with
  | EmptyString => []
  | String c rest => N_of_ascii c :: codes rest
  end.

(** Line terminators: the characters that [.] does not match. *)
Definition is_line_terminator (c : ascii) : bool :=
  Ascii.eqb c "010" || Ascii.eqb c "013".

(** Absence of line terminators in a string. *)
Fixpoint no_line_terminator (s : string) : bool :=
  match s with
  | EmptyString => true
  | String c rest => negb (is_line_terminator c) && no_line_terminator rest
  end.

(** Absence of a given character in a string. *)
Fixpoint lacks (c : ascii) (s : string) : bool :=
  match s with
  | EmptyString => true
  | String d rest => negb (Ascii.eqb d c) && lacks c rest
  end.

End JsString.

(** A JavaScript value of the shapes JSON can carry, and [undefined]. An
    object keeps its fields in order; a field is read at its first
    occurrence. *)
Inductive value :=
| VUndefined
| VNull
| VBool (b : bool)
| VNum (x : float)
| VStr (s : string)
| VArr (elements : list value)
| VObj (fields : list (string * value)).

(** ToBoolean. *)
Definition truthy (v : value) : bool :=
  match v with
  | VUndefined | VNull => false
  | VBool b => b
  | VNum x => JsNumber.truthy x
  | VStr s => negb (String.eqb s "")
  | VArr _ | VObj _ => true
  end.

(** [a || b]. *)
Definition js_or (a b : value) : value := if truthy a then a else b.

(** A field of an object literal; [undefined] when it is not there. *)
Fixpoint field (fields : list (string * value)) (p : string) : value :=
  match fields with
  | [] => VUndefined
  | (k, v) :: rest => if String.eqb k p then v else field rest p
  end.

(** [p] is a key of the object itself. *)
Definition has_own (fields : list (string * value)) (p : string) : bool :=
  existsb (fun kv => String.eqb (fst kv) p) fields.

(** What is thrown, or what a promise is rejected with: an [Error] object
    with its [name] and [message], or something that is no [Error]. *)
Inductive Thrown :=
| ErrorObject (name message : string)
| NonError (v : value).

(** [e instanceof Error ? e.message : fallback]. *)
Definition message_or (e : Thrown) (fallback : string) : string :=
  match e with
  | ErrorObject _ m => m
  | NonError _ => fallback
  end.

(** How an evaluation completes, or how a promise settles. *)
Inductive Outcome (A : Type) :=
| Normal (a : A)
| Throw (e : Thrown).
Arguments Normal {A} a.
Arguments Throw {A} e.

(* ===================================================================== *)
(** * Files, requests and responses (browser objects) *)
(* ===================================================================== *)

(** A [File] (or a [Blob], whose [name] is empty): the bytes, the name and
    the [type] option it was built with. *)
Record File := {
  bits : list N;
  name : string;
  type : string;
}.

(** [new File(fileBits, fileName, { type })]. The constructor keeps a type
    made of characters U+0020 to U+007E, in ASCII lower case, and replaces
    any other type by the empty string. *)
Definition new_File (fileBits : list N) (fileName : string) (t : string) : File :=
  {| bits := fileBits;
     name := fileName;
     type := if JsString.all_printable t then JsString.ascii_lowercase t else "" |}.

(** One entry of a [FormData]: field name, content and, when
    [append] was given one, the file name. *)
Record FormEntry := {
  entry_name : string;
  entry_value : File;
  entry_filename : option string;
}.

Definition FormData := list FormEntry.

(** [formData.append(name, value)]: entries are kept in the order of the
    calls. *)
Definition append (formData : FormData) (n : string) (v : File)
    (filename : option string) : FormData :=
  formData ++ [{| entry_name := n; entry_value := v; entry_filename := filename |}].

(** What [fetch] is called with. *)
Record Request := {
  url : string;
  method : string;
  body : option FormData;
}.

(** A [Response]: status line, and the way [response.json()] settles. *)
Record Response := {
  status : nat;
  statusText : string;
  json : Outcome value;
}.

(** [response.ok]: the status is in the range 200-299. *)
Definition ok (response : Response) : bool :=
  (200 <=? status response)%nat && (status response <=? 299)%nat.

(** What the program does not decide. *)
Record Platform := {
  (** text of the TypeError raised when property [p] of [null] or
      [undefined] is read *)
  null_read_message : string -> string;
  (** text of the InvalidCharacterError raised by [atob] *)
  atob_message : string;
  (** text of the TypeError raised when an object cannot be converted to
      a primitive value *)
  to_primitive_message : string;
  (** Number::toString *)
  number_to_string : float -> string;
  (** [x.toFixed(digits)] *)
  toFixed : float -> nat -> string;
  (** [new Date(t).toLocaleString('id-ID', ...)], with the options of
      [formatTimestamp] *)
  toLocaleString : string -> string;
  (** [new Date(t).toLocaleTimeString('id-ID', ...)], with the options of
      the history list *)
  toLocaleTimeString : string -> string;
  (** process.env.NEXT_PUBLIC_API_URL *)
  NEXT_PUBLIC_API_URL : option string;
  (** the network: what [fetch] settles with, given the requests sent
      before and the request *)
  network : list Request -> Request -> Outcome Response;
}.

(** [Array.prototype.join] before the pieces are put together: the
    elements are converted from left to right, [null] and [undefined]
    give the empty text, and the first conversion that throws ends the
    call. *)
Definition join_elements (convert : value -> Outcome string)
    : list value -> Outcome (list string) :=
  fix join (elements : list value) : Outcome (list string) :=
    match elements with
    | [] => Normal []
    | e :: rest =>
        match match e with
              | VUndefined | VNull => Normal ""
              | _ => convert e
              end with
        | Throw t => Throw t
        | Normal piece =>
            match join rest with
            | Throw t => Throw t
            | Normal pieces => Normal (piece :: pieces)
            end
        end
    end.

(** ToString. An object is converted by its [toString], then by its
    [valueOf]. For an object of parsed JSON, the [toString] of
    [Object.prototype] gives ["[object Object]"], unless the object has a
    key [toString] of its own: its value is no function, [valueOf] gives no
    primitive either (a key of its own is no function, and the one of
    [Object.prototype] returns the object), and a TypeError is thrown. An
    array is joined with commas. *)
Fixpoint ToString (P : Platform) (v : value) : Outcome string :=
  match v with
  | VUndefined => Normal "undefined"
  | VNull => Normal "null"
  | VBool b => Normal (if b then "true" else "false")
  | VNum x => Normal (number_to_string P x)
  | VStr s => Normal s
  | VArr elements =>
      match join_elements (ToString P) elements with
      | Throw t => Throw t
      | Normal pieces => Normal (String.concat "," pieces)
      end
  | VObj fields =>
      if has_own fields "toString"
      then Throw (ErrorObject "TypeError" (to_primitive_message P))
      else Normal "[object Object]"
  end.

(** [new Error(message)]: a message that is not [undefined] is converted
    to a string, and the conversion can throw; without a message, the
    [message] of the error is the empty one of [Error.prototype]. *)
Definition new_Error (P : Platform) (message : value) : Outcome Thrown :=
  match message with
  | VUndefined => Normal (ErrorObject "Error" "")
  | _ =>
      match ToString P message with
      | Normal text => Normal (ErrorObject "Error" text)
      | Throw e => Throw e
      end
  end.

(** [v.p] for a property [p] such as [detail]: no array index, not
    [length], and nothing that the prototypes define. Reading a property
    of [null] or [undefined] throws; a primitive or an array has no such
    property. *)
Definition read_property (P : Platform) (v : value) (p : string) : Outcome value :=
  match v with
  | VUndefined | VNull => Throw (ErrorObject "TypeError" (null_read_message P p))
  | VObj fields => Normal (field fields p)
  | VBool _ | VNum _ | VStr _ | VArr _ => Normal VUndefined
  end.

(* ===================================================================== *)
(** * lib/utils.ts *)
(* ===================================================================== *)

Definition getConfidenceColor (confidence : float) : string :=
  if JsNumber.ge confidence 0.8%float then "text-red-600"
  else if JsNumber.ge confidence 0.6%float then "text-orange-600"
  else if JsNumber.ge confidence 0.4%float then "text-yellow-600"
  else "text-green-600".

Definition getConfidenceBgColor (confidence : float) : string :=
  if JsNumber.ge confidence 0.8%float then "bg-red-50 border-red-200"
  else if JsNumber.ge confidence 0.6%float then "bg-orange-50 border-orange-200"
  else if JsNumber.ge confidence 0.4%float then "bg-yellow-50 border-yellow-200"
  else "bg-green-50 border-green-200".

(** The four buckets, in the order green < yellow < orange < red. *)
Inductive Bucket := Green | Yellow | Orange | Red.

Definition bucket_rank (b : Bucket) : nat :=
  match b with Green => 0 | Yellow => 1 | Orange => 2 | Red => 3 end.

Definition bucket_le (b1 b2 : Bucket) : Prop := bucket_rank b1 <= bucket_rank b2.

(** The bucket a text class stands for; [None] for any other string. *)
Definition bucket_of_color (cls : string) : option Bucket :=
  if String.eqb cls "text-green-600" then Some Green
  else if String.eqb cls "text-yellow-600" then Some Yellow
  else if String.eqb cls "text-orange-600" then Some Orange
  else if String.eqb cls "text-red-600" then Some Red
  else None.

(** The bucket a background class stands for. *)
Definition bucket_of_bg (cls : string) : option Bucket :=
  if String.eqb cls "bg-green-50 border-green-200" then Some Green
  else if String.eqb cls "bg-yellow-50 border-yellow-200" then Some Yellow
  else if String.eqb cls "bg-orange-50 border-orange-200" then Some Orange
  else if String.eqb cls "bg-red-50 border-red-200" then Some Red
  else None.

(** The bucket of a confidence, read off the thresholds. *)
Definition bucket_of (confidence : float) : Bucket :=
  if JsNumber.ge confidence 0.8%float then Red
  else if JsNumber.ge confidence 0.6%float then Orange
  else if JsNumber.ge confidence 0.4%float then Yellow
  else Green.

(** The risk tier of a brand: ['high' | 'medium' | 'low']. *)
Inductive RiskLevel := high | medium | low.

Definition risk_level_string (r : RiskLevel) : string :=
  match r with high => "high" | medium => "medium" | low => "low" end.

Definition getRiskLevelColor (riskLevel : RiskLevel) : string :=
  match riskLevel with
  | high => "bg-red-100 text-red-800 border-red-200"
  | medium => "bg-orange-100 text-orange-800 border-orange-200"
  | low => "bg-green-100 text-green-800 border-green-200"
  end.

(** ** [dataURLtoFile] *)

(** The regular expression [/:(.*?);/], from just after a [:]: the lazy
    group takes characters up to the first [;]; [.] refuses a line
    terminator. The result is the text of group 1. *)
Fixpoint lazy_group_then_semicolon (s : string) : option string :=
  match s with
  | EmptyString => None
  | String c rest =>
      if Ascii.eqb c ";" then Some EmptyString
      else if JsString.is_line_terminator c then None
      else option_map (String c) (lazy_group_then_semicolon rest)
  end.

(** [s.match(/:(.*?);/)]: the leftmost [:] from which the rest of the
    expression matches; [None] is [null], [Some m] a match whose group 1 is
    [m]. *)
Fixpoint match_colon_semicolon (s : string) : option string :=
  match s with
  | EmptyString => None
  | String c rest =>
      if Ascii.eqb c ":" then
        match lazy_group_then_semicolon rest with
        | Some m => Some m
        | None => match_colon_semicolon rest
        end
      else match_colon_semicolon rest
  end.

(** The text has a [:], then characters other than line terminators, then
    a [;]. *)
Definition has_colon_semicolon (s : string) : Prop :=
  exists pre m post,
    s = pre +:+ String ":" (m +:+ String ";" post)
    /\ JsString.no_line_terminator m = true.

(** [arr[0]]: the text before the first comma, or the whole text. *)
Definition header_of (dataurl : string) : string :=
  nth 0 (JsString.split "," dataurl) "".

(** The value of a character in the base64 alphabet. *)
Definition base64_value (c : ascii) : option N :=
  let n := N_of_ascii c in
  if ((65 <=? n) && (n <=? 90))%N then Some (n - 65)%N
  else if ((97 <=? n) && (n <=? 122))%N then Some (n - 71)%N
  else if ((48 <=? n) && (n <=? 57))%N then Some (n + 4)%N
  else if (n =? 43)%N then Some 62%N
  else if (n =? 47)%N then Some 63%N
  else None.

(** ASCII whitespace, which [atob] skips. *)
Definition is_ascii_whitespace (c : ascii) : bool :=
  let n := N_of_ascii c in
  ((n =? 9) || (n =? 10) || (n =? 12) || (n =? 13) || (n =? 32))%N.

(** The bytes that groups of 6-bit values stand for; a last group of three
    or two values loses its 2 or 4 low bits. *)
Fixpoint sextets_to_bytes (l : list N) : list N :=
  match l with
  | a :: b :: c :: d :: rest =>
      let w := (a * 262144 + b * 4096 + c * 64 + d)%N in
      (w / 65536)%N :: ((w / 256) mod 256)%N :: (w mod 256)%N
        :: sextets_to_bytes rest
  | [a; b; c] =>
      let w := ((a * 4096 + b * 64 + c) / 4)%N in
      [(w / 256)%N; (w mod 256)%N]
  | [a; b] => [((a * 64 + b) / 16)%N]
  | _ => []
  end.

(** Removal of at most two [=] at the end of a reversed text. *)
Definition strip_padding (reversed : list ascii) : list ascii :=
  match reversed with
  | "="%char :: "="%char :: rest => rest
  | "="%char :: rest => rest
  | _ => reversed
  end.

(** [atob], the browser's forgiving base64 decoder: whitespace is dropped,
    padding is removed from a text whose length is a multiple of 4, a
    length of 1 modulo 4 or a character outside the alphabet is an error;
    the result is a string of bytes. *)
Definition atob (P : Platform) (data : string) : Outcome string :=
  let chars := filter (fun c => is_ascii_whitespace c = false)
                 (list_ascii_of_string data) in
  let chars := if (length chars mod 4 =? 0)%nat
               then rev (strip_padding (rev chars)) else chars in
  if (length chars mod 4 =? 1)%nat
  then Throw (ErrorObject "InvalidCharacterError" (atob_message P))
  else match mapM base64_value chars with
       | None => Throw (ErrorObject "InvalidCharacterError" (atob_message P))
       | Some sextets =>
           Normal (string_of_list_ascii (map ascii_of_N (sextets_to_bytes sextets)))
       end.

(** The loop [while(n--){ u8arr[n] = bstr.charCodeAt(n) }]: [n] is
    decremented, then the body runs with the new [n], down to index 0. A
    typed array stores a number modulo 256 (0 for NaN), and ignores an
    index past its end. *)
Fixpoint fill_u8arr (bstr : string) (n : nat) (u8arr : list N) : list N :=
  match n with
  | O => u8arr
  | S n' =>
      fill_u8arr bstr n'
        (<[n' := (default 0 (JsString.charCodeAt bstr n') mod 256)%N]> u8arr)
  end.

(** [arr[1]] is [undefined] for a text without a comma; [atob] converts
    its argument to a string. *)
Definition dataURLtoFile (P : Platform) (dataurl filename : string) : Outcome File :=
  let arr := JsString.split "," dataurl in
  match match_colon_semicolon (nth 0 arr "") with
  | None => Throw (ErrorObject "TypeError" (null_read_message P "1"))
  | Some mime =>
      match atob P (from_option id "undefined" (arr !! 1%nat)) with
      | Throw e => Throw e
      | Normal bstr =>
          let n := String.length bstr in
          let u8arr := replicate n 0%N in
          let u8arr := fill_u8arr bstr n u8arr in
          Normal (new_File u8arr filename mime)
      end
  end.

Definition formatConfidence (P : Platform) (confidence : float) : string :=
  toFixed P (confidence * 100)%float 1 +:+ "%".

Definition formatTimestamp (P : Platform) (timestamp : string) : string :=
  toLocaleString P timestamp.

(* ===================================================================== *)
(** * lib/types.ts *)
(* ===================================================================== *)

Record DetectedFeatures := {
  barcode_729 : bool;
  made_in_israel_text : bool;
  hebrew_text : bool;
  israeli_brand : bool;
  kosher_certification : bool;
}.

Record BrandInfo := {
  brand_name : string;
  category : string;
  risk_level : RiskLevel;
}.

Record DetectionResult := {
  is_israeli_product : bool;
  confidence : float;
  detected_features : DetectedFeatures;
  brand_info : option BrandInfo;
  timestamp : string;
  processing_time_ms : option float;
}.

(** [ApiResponse<T>]: every field but [success] is optional. The [error]
    field is declared a string; what is stored there when the program runs
    may be any value (see [handleResponse]). *)
Record ApiResponse (T : Type) := {
  success : bool;
  data : option T;
  error : option value;
  message : option string;
}.
Arguments success {T} _.
Arguments data {T} _.
Arguments error {T} _.
Arguments message {T} _.

(** [response.error], under a name that the components' own [error] state
    does not hide. *)
Definition error_of {T} (response : ApiResponse T) : option value :=
  error response.

Record ModelInfo := {
  model_status : string;
  model_type : option string;
  n_estimators : option float;
  max_depth : option float;
  feature_count : option float;
  feature_names : option (list string);
  brands_count : option float;
}.

Record Brand := {
  products : list string;
  brand_category : string;
  brand_risk_level : RiskLevel;
}.

(** [BrandDatabase]: brands by name, in the order of the object's keys. *)
Definition BrandDatabase := list (string * Brand).

(** The payload of [/health]. *)
Record HealthStatus := {
  health_status : string;
  model_ready : bool;
}.

(* ===================================================================== *)
(** * lib/api.ts *)
(* ===================================================================== *)

(** An asynchronous computation that may send requests: from the log of
    the requests sent so far to the way it settles and the new log. *)
Definition Async (A : Type) : Type := list Request -> Outcome A * list Request.

Definition ret {A} (a : A) : Async A := fun log => (Normal a, log).

Definition bind {A B} (m : Async A) (k : A -> Async B) : Async B :=
  fun log =>
    match m log with
    | (Normal a, log') => k a log'
    | (Throw e, log') => (Throw e, log')
    end.

Notation "'let*' x ':=' m 'in' k" := (bind m (fun x => k))
  (at level 10, x name, m at level 100, k at level 200).

(** [await] of a promise whose outcome is known. *)
Definition await {A} (o : Outcome A) : Async A := fun log => (o, log).

(** [try { body } catch (error) { handler }]. *)
Definition try_catch {A} (body : Async A) (handler : Thrown -> Async A) : Async A :=
  fun log =>
    match body log with
    | (Normal a, log') => (Normal a, log')
    | (Throw e, log') => handler e log'
    end.

(** [try { x = body; return returned(x) } catch (error) { handler }] where
    the promise [returned(x)] is returned without being awaited: the
    handler does not see its rejection. *)
Definition try_return {A B} (body : Async A) (returned : A -> Async B)
    (handler : Thrown -> Async B) : Async B :=
  fun log =>
    match body log with
    | (Normal a, log') => returned a log'
    | (Throw e, log') => handler e log'
    end.

(** [fetch(request)]: the network decides; the request is logged. *)
Definition fetch (P : Platform) (request : Request) : Async Response :=
  fun log => (network P log request, log ++ [request]).

(** [process.env.NEXT_PUBLIC_API_URL || 'http://localhost:8000']. *)
Definition API_BASE_URL (P : Platform) : string :=
  match NEXT_PUBLIC_API_URL P with
  | Some u => if String.eqb u "" then "http://localhost:8000" else u
  | None => "http://localhost:8000"
  end.

(** The result built in the [catch] blocks. *)
Definition failure {T} (text : string) : ApiResponse T :=
  {| success := false; data := None; error := Some (VStr text); message := None |}.

Module DetectionApi.

(** [`HTTP ${response.status}: ${response.statusText}`]. *)
Definition http_status_message (response : Response) : string :=
  "HTTP " +:+ pretty (status response) +:+ ": " +:+ statusText response.

Definition handleResponse (P : Platform) (response : Response)
    : Async (ApiResponse value) :=
  try_catch
    (if negb (ok response) then
       let* errorData := await (json response) in
       let* detail := await (read_property P errorData "detail") in
       ret {| success := false;
              data := None;
              error := Some (js_or detail (VStr (http_status_message response)));
              message := None |}
     else
       let* data := await (json response) in
       ret {| success := true; data := Some data; error := None; message := None |})
    (fun error => ret (failure (message_or error "Unknown error occurred"))).

Definition analyzeImage (P : Platform) (imageFile : File)
    : Async (ApiResponse value) :=
  try_return
    (let formData := append [] "image" imageFile None in
     fetch P {| url := API_BASE_URL P +:+ "/analyze";
                method := "POST";
                body := Some formData |})
    (fun response => handleResponse P response)
    (fun error => ret (failure (message_or error "Network error"))).

Definition analyzeImageFromBlob (P : Platform) (imageBlob : File)
    : Async (ApiResponse value) :=
  try_return
    (let formData := append [] "image" imageBlob (Some "capture.jpg") in
     fetch P {| url := API_BASE_URL P +:+ "/analyze";
                method := "POST";
                body := Some formData |})
    (fun response => handleResponse P response)
    (fun error => ret (failure (message_or error "Network error"))).

(** [imageFiles.forEach((file, index) => formData.append('images', file))]. *)
Definition append_images (formData : FormData) (imageFiles : list File) : FormData :=
  fold_left (fun formData file => append formData "images" file None)
    imageFiles formData.

Definition analyzeBatch (P : Platform) (imageFiles : list File)
    : Async (ApiResponse value) :=
  try_return
    (let formData := append_images [] imageFiles in
     fetch P {| url := API_BASE_URL P +:+ "/analyze/batch";
                method := "POST";
                body := Some formData |})
    (fun response => handleResponse P response)
    (fun error => ret (failure (message_or error "Network error"))).

(** [fetch(url)] with no options: a GET without a body. *)
Definition get (P : Platform) (path : string) : Async Response :=
  fetch P {| url := API_BASE_URL P +:+ path; method := "GET"; body := None |}.

Definition getModelInfo (P : Platform) : Async (ApiResponse value) :=
  try_return (get P "/model/info")
    (fun response => handleResponse P response)
    (fun error => ret (failure (message_or error "Network error"))).

Definition getBrandsDatabase (P : Platform) : Async (ApiResponse value) :=
  try_return (get P "/brands/database")
    (fun response => handleResponse P response)
    (fun error => ret (failure (message_or error "Network error"))).

Definition healthCheck (P : Platform) : Async (ApiResponse value) :=
  try_return (get P "/health")
    (fun response => handleResponse P response)
    (fun error => ret (failure (message_or error "Network error"))).

End DetectionApi.

(* ===================================================================== *)
(** * app/page.tsx: the dashboard's state and [detectProduct] *)
(* ===================================================================== *)

(** [l.slice(start, end)] for indices that are not negative. *)
Definition slice {A} (start end_ : nat) (l : list A) : list A :=
  take (end_ - start) (drop start l).

Module Page.

(** The state of [Dashboard]: one field per [useState]. A detection result
    is the [data] of the API's answer as it came. *)
Record State := {
  isDetecting : bool;
  detectionResult : value;
  error : option string;
  capturedImage : option string;
  isWebcamActive : bool;
  detectionHistory : list value;
}.

Definition initial : State :=
  {| isDetecting := false;
     detectionResult := VNull;
     error := None;
     capturedImage := None;
     isWebcamActive := false;
     detectionHistory := [] |}.

Definition setIsDetecting (b : bool) (st : State) : State :=
  {| isDetecting := b;
     detectionResult := detectionResult st;
     error := error st;
     capturedImage := capturedImage st;
     isWebcamActive := isWebcamActive st;
     detectionHistory := detectionHistory st |}.

Definition setDetectionResult (v : value) (st : State) : State :=
  {| isDetecting := isDetecting st;
     detectionResult := v;
     error := error st;
     capturedImage := capturedImage st;
     isWebcamActive := isWebcamActive st;
     detectionHistory := detectionHistory st |}.

Definition setError (e : option string) (st : State) : State :=
  {| isDetecting := isDetecting st;
     detectionResult := detectionResult st;
     error := e;
     capturedImage := capturedImage st;
     isWebcamActive := isWebcamActive st;
     detectionHistory := detectionHistory st |}.

(** [setDetectionHistory(updater)]: the updater is applied to the current
    list. *)
Definition setDetectionHistory (updater : list value -> list value) (st : State) : State :=
  {| isDetecting := isDetecting st;
     detectionResult := detectionResult st;
     error := error st;
     capturedImage := capturedImage st;
     isWebcamActive := isWebcamActive st;
     detectionHistory := updater (detectionHistory st) |}.

(** The [catch] block of [detectProduct] (the console is not modelled). *)
Definition on_catch (err : Thrown) (st : State) : State :=
  setError (Some (message_or err "Terjadi kesalahan saat deteksi")) st.

(** An absent optional field reads as [undefined]; [!] changes nothing
    when the program runs. *)
Definition read_optional (v : option value) : value :=
  match v with Some x => x | None => VUndefined end.

(** [throw new Error(message)] inside [try]: what the [catch] block
    receives, the new error or, when the conversion of the message throws,
    the exception of the conversion. *)
Definition thrown_by_new_Error (P : Platform) (message : value) : Thrown :=
  match new_Error P message with
  | Normal e => e
  | Throw e => e
  end.

(** [detectProduct(imageData)], from a state and a request log to the state
    and the log when the returned promise settles. The body of [try] stops
    at the first exception; [finally] runs in every case. *)
Definition detectProduct (P : Platform) (imageData : string) (st : State)
    (log : list Request) : State * list Request :=
  let st := setIsDetecting true st in
  let st := setError None st in
  let '(st, log) :=
    match dataURLtoFile P imageData "capture.jpg" with
    | Throw err => (on_catch err st, log)
    | Normal imageFile =>
        match DetectionApi.analyzeImage P imageFile log with
        | (Throw err, log) => (on_catch err st, log)
        | (Normal result, log) =>
            if negb (success result) then
              let thrown :=
                thrown_by_new_Error P
                  (js_or (read_optional (error_of result))
                     (VStr "Gagal melakukan deteksi produk")) in
              (on_catch thrown st, log)
            else
              let data := read_optional (data result) in
              let st := setDetectionResult data st in
              let st := setDetectionHistory
                          (fun prev => data :: slice 0 9 prev) st in
              (st, log)
        end
    end in
  (setIsDetecting false st, log).

(** The banner of the page, [{error && (...)}]: the text shown, if any. *)
Definition banner (st : State) : option string :=
  match error st with
  | Some text => if String.eqb text "" then None else Some text
  | None => None
  end.

End Page.

(* ===================================================================== *)
(** * components/SystemStatus.tsx *)
(* ===================================================================== *)

Module SystemStatus.

Record State := {
  modelInfo : option ModelInfo;
  healthStatus : option HealthStatus;
  brandsCount : float;
  isLoading : bool;
  error : option string;
}.

Definition initial : State :=
  {| modelInfo := None;
     healthStatus := None;
     brandsCount := 0%float;
     isLoading := true;
     error := None |}.

Definition setModelInfo (m : option ModelInfo) (st : State) : State :=
  {| modelInfo := m; healthStatus := healthStatus st;
     brandsCount := brandsCount st; isLoading := isLoading st;
     error := error st |}.

Definition setHealthStatus (h : option HealthStatus) (st : State) : State :=
  {| modelInfo := modelInfo st; healthStatus := h;
     brandsCount := brandsCount st; isLoading := isLoading st;
     error := error st |}.

Definition setBrandsCount (n : float) (st : State) : State :=
  {| modelInfo := modelInfo st; healthStatus := healthStatus st;
     brandsCount := n; isLoading := isLoading st;
     error := error st |}.

Definition setIsLoading (b : bool) (st : State) : State :=
  {| modelInfo := modelInfo st; healthStatus := healthStatus st;
     brandsCount := brandsCount st; isLoading := b;
     error := error st |}.

Definition setError (e : option string) (st : State) : State :=
  {| modelInfo := modelInfo st; healthStatus := healthStatus st;
     brandsCount := brandsCount st; isLoading := isLoading st;
     error := e |}.

(** [Object.values(brands).reduce((sum, brand) => sum + brand.products.length, 0)]. *)
Definition totalProducts (brands : BrandDatabase) : float :=
  fold_left
    (fun sum brand => (sum + JsNumber.of_nat (length (products brand)))%float)
    (map snd brands) 0%float.

(** [fetchSystemStatus], given the way the promises of [healthCheck],
    [getModelInfo] and [getBrandsDatabase] settle. [Promise.all] is
    rejected as soon as one of them is; [Object.values] of an absent [data]
    throws; both end in the [catch] block. *)
Definition fetchSystemStatus
    (health : Outcome (ApiResponse HealthStatus))
    (model : Outcome (ApiResponse ModelInfo))
    (brands : Outcome (ApiResponse BrandDatabase))
    (st : State) : State :=
  let st := setIsLoading true st in
  let st := setError None st in
  let st :=
    match health, model, brands with
    | Normal healthResponse, Normal modelResponse, Normal brandsResponse =>
        let st := if success healthResponse
                  then setHealthStatus (data healthResponse) st else st in
        let st := if success modelResponse
                  then setModelInfo (data modelResponse) st else st in
        if success brandsResponse then
          match data brandsResponse with
          | Some brands => setBrandsCount (totalProducts brands) st
          | None => setError (Some "Gagal memuat status sistem") st
          end
        else st
    | _, _, _ => setError (Some "Gagal memuat status sistem") st
    end in
  setIsLoading false st.

(** What the component shows: the spinner, the error panel with its text
    and the retry button, or the status panel with the online badge, the
    two indicators, the model block and the count. *)
Inductive View :=
| Spinner
| ErrorPanel (text : string)
| StatusPanel (online api_active ai_ready : bool)
    (model : option ModelInfo) (count : float).

(** The status panel, drawn from the state. *)
Definition status_panel (st : State) : View :=
  StatusPanel
    (match healthStatus st with
     | Some h => String.eqb (health_status h) "healthy" && model_ready h
     | None => false
     end)
    (match healthStatus st with
     | Some h => String.eqb (health_status h) "healthy"
     | None => false
     end)
    (match healthStatus st with
     | Some h => model_ready h
     | None => false
     end)
    (match modelInfo st with
     | Some m => if String.eqb (model_status m) "ready" then Some m else None
     | None => None
     end)
    (brandsCount st).

(** [if (isLoading) ...; if (error) ...; ...]: an empty text is falsy. *)
Definition render (st : State) : View :=
  if isLoading st then Spinner
  else
    match error st with
    | Some text =>
        if negb (String.eqb text "") then ErrorPanel text else status_panel st
    | None => status_panel st
    end.

End SystemStatus.

(* ===================================================================== *)
(** * Rendered trees *)
(* ===================================================================== *)

(** What a component returns: elements with their attributes ([className],
    [style], [title]) and children, the literal text of the JSX, and the
    text that a [{expression}] evaluates to. Event handlers and keys are
    not part of the tree. A condition that fails renders nothing. *)
Inductive vnode :=
| Element (tag : string) (attrs : list (string * string)) (children : list vnode)
| Text (s : string)
| Expr (s : string).

(** An element with a class name only. *)
Definition el (tag className : string) (children : list vnode) : vnode :=
  Element tag [("className", className)] children.

(** The literal texts of a tree, in document order. *)
Fixpoint texts (t : vnode) : list string :=
  match t with
  | Element _ _ children => flat_map texts children
  | Text s => [s]
  | Expr _ => []
  end.

(** The evaluated expressions of a tree, in document order. *)
Fixpoint exprs (t : vnode) : list string :=
  match t with
  | Element _ _ children => flat_map exprs children
  | Text _ => []
  | Expr s => [s]
  end.

(** All the nodes of a tree, the root first. *)
Fixpoint nodes (t : vnode) : list vnode :=
  match t with
  | Element _ _ children => t :: flat_map nodes children
  | Text _ | Expr _ => [t]
  end.

(** [Object.entries(result.detected_features)], in the order of the
    interface. *)
Definition feature_entries (f : DetectedFeatures) : list (string * bool) :=
  [("barcode_729", barcode_729 f);
   ("made_in_israel_text", made_in_israel_text f);
   ("hebrew_text", hebrew_text f);
   ("israeli_brand", israeli_brand f);
   ("kosher_certification", kosher_certification f)].

(** [\w]. *)
Definition is_word_char (c : ascii) : bool :=
  let n := N_of_ascii c in
  (((48 <=? n) && (n <=? 57)) || ((65 <=? n) && (n <=? 90))
   || (n =? 95) || ((97 <=? n) && (n <=? 122)))%N.

(** [s.replace(/\b\w/g, l => l.toUpperCase())]: a word character that
    follows no word character is put in upper case. *)
Fixpoint capitalize_words (after_word : bool) (s : string) : string :=
  match s with
  | EmptyString => EmptyString
  | String c rest =>
      String (if is_word_char c && negb after_word then JsString.upper_char c else c)
        (capitalize_words (is_word_char c) rest)
  end.

(** [key.replace(/_/g, ' ').replace(/\b\w/g, l => l.toUpperCase())]. *)
Definition feature_title (key : string) : string :=
  capitalize_words false (JsString.replace_underscores key).

(** The class of the confidence bar. *)
Definition bar_color (confidence : float) : string :=
  if JsNumber.ge confidence 0.8%float then "bg-red-500"
  else if JsNumber.ge confidence 0.6%float then "bg-orange-500"
  else if JsNumber.ge confidence 0.4%float then "bg-yellow-500"
  else "bg-green-500".

(* ===================================================================== *)
(** * components/DetectionResultCard.tsx *)
(* ===================================================================== *)

(** One row of the feature list. *)
Definition feature_row (entry : string * bool) : vnode :=
  let '(key, value) := entry in
  el "div" "flex items-center justify-between py-1"
    [ el "span" "text-sm text-gray-600 capitalize" [Expr (feature_title key)];
      el "div" "flex items-center space-x-2"
        (if value then
           [ el "CheckCircle" "h-4 w-4 text-red-500" [];
             el "span" "text-sm font-medium text-red-600" [Text "Terdeteksi"] ]
         else
           [ el "XCircle" "h-4 w-4 text-gray-400" [];
             el "span" "text-sm text-gray-500" [Text "Tidak Ada"] ]) ].

(** The block under [result.brand_info && (...)]. *)
Definition brand_block (info : BrandInfo) : vnode :=
  el "div" "mb-4 p-3 bg-gray-50 rounded-lg"
    [ el "h4" "font-medium text-gray-900 mb-2 flex items-center"
        [ el "Info" "h-4 w-4 mr-2" []; Text "Informasi Brand" ];
      el "div" "space-y-2 text-sm"
        [ el "div" "flex justify-between"
            [ el "span" "text-gray-600" [Text "Nama:"];
              el "span" "font-medium" [Expr (brand_name info)] ];
          el "div" "flex justify-between"
            [ el "span" "text-gray-600" [Text "Kategori:"];
              el "span" "font-medium capitalize"
                [Expr (JsString.replace_underscores (category info))] ];
          el "div" "flex justify-between items-center"
            [ el "span" "text-gray-600" [Text "Risk Level:"];
              el "span"
                ("px-2 py-1 rounded-full text-xs font-medium border "
                 +:+ getRiskLevelColor (risk_level info))
                [Expr (JsString.toUpperCase (risk_level_string (risk_level info)))] ] ] ].

(** The literal texts of the brand block: the heading and the labels of
    the name, the category and the risk level. *)
Definition brand_labels : list string :=
  ["Informasi Brand"; "Nama:"; "Kategori:"; "Risk Level:"].

(** [result.processing_time_ms && (...)]: nothing for an absent field, the
    number itself when it is [0] or [NaN], the span otherwise. *)
Definition processing_time (P : Platform) (t : option float) : list vnode :=
  match t with
  | None => []
  | Some ms =>
      if JsNumber.truthy ms then
        [ Element "span" [] [Text "Waktu Proses: "; Expr (toFixed P ms 0); Text "ms"] ]
      else [ Expr (number_to_string P ms) ]
  end.

(** [DetectionResultCard({ result, onDownload })]; [onDownload] tells
    whether the handler was given. *)
Definition DetectionResultCard (P : Platform) (result : DetectionResult)
    (onDownload : bool) : vnode :=
  let isIsraeliProduct := is_israeli_product result in
  let confidenceColor := getConfidenceColor (confidence result) in
  el "div" "bg-white rounded-2xl shadow-lg border border-gray-100 overflow-hidden"
    [ (* Header *)
      el "div"
        ("p-4 " +:+ (if isIsraeliProduct then "bg-red-50 border-b border-red-100"
                     else "bg-green-50 border-b border-green-100"))
        [ el "div" "flex items-center justify-between"
            ([ el "div" "flex items-center space-x-3"
                 [ (if isIsraeliProduct then el "XCircle" "h-6 w-6 text-red-600" []
                    else el "CheckCircle" "h-6 w-6 text-green-600" []);
                   Element "div" []
                     [ el "h3"
                         ("font-semibold " +:+
                          (if isIsraeliProduct then "text-red-800" else "text-green-800"))
                         [Expr (if isIsraeliProduct then "Produk Terafiliasi Israel"
                                else "Produk Aman")];
                       el "p"
                         ("text-sm " +:+
                          (if isIsraeliProduct then "text-red-600" else "text-green-600"))
                         [Text "Confidence: ";
                          Expr (formatConfidence P (confidence result))] ] ] ]
             ++ (if onDownload then
                   [ el "button"
                       "p-2 text-gray-500 hover:text-gray-700 hover:bg-gray-100 rounded-lg transition-colors"
                       [ el "Download" "h-4 w-4" [] ] ]
                 else [])) ];
      (* Content *)
      el "div" "p-4"
        ([ (* Confidence Bar *)
           el "div" "mb-4"
             [ el "div" "flex justify-between items-center mb-2"
                 [ el "span" "text-sm font-medium text-gray-700" [Text "Tingkat Keyakinan"];
                   el "span" ("text-sm font-semibold " +:+ confidenceColor)
                     [Expr (formatConfidence P (confidence result))] ];
               el "div" "w-full bg-gray-200 rounded-full h-2"
                 [ Element "div"
                     [("className",
                       "h-2 rounded-full transition-all duration-500 "
                       +:+ bar_color (confidence result));
                      ("style",
                       "width: " +:+ number_to_string P (confidence result * 100)%float
                       +:+ "%")]
                     [] ] ];
           (* Detected Features *)
           el "div" "mb-4"
             [ el "h4" "font-medium text-gray-900 mb-3" [Text "Fitur yang Terdeteksi"];
               el "div" "space-y-2"
                 (map feature_row (feature_entries (detected_features result))) ] ]
         ++ (* Brand Info *)
            (match brand_info result with
             | Some info => [brand_block info]
             | None => []
             end)
         ++ (* Timestamp *)
            [ el "div" "text-xs text-gray-500 border-t pt-3"
                [ el "div" "flex justify-between items-center"
                    (Element "span" []
                       [Text "Waktu Deteksi: ";
                        Expr (formatTimestamp P (timestamp result))]
                     :: processing_time P (processing_time_ms result)) ] ]) ].

(* ===================================================================== *)
(** * components/DetectionHistory.tsx *)
(* ===================================================================== *)

(** The statistics computed above the list. *)
Record Statistics := {
  totalDetections : nat;
  israeliProducts : nat;
  safeProducts : nat;
  averageConfidence : float;
}.

(** [history.reduce((sum, h) => sum + h.confidence, 0)]. *)
Definition confidence_sum (history : list DetectionResult) : float :=
  fold_left (fun sum h => (sum + confidence h)%float) history 0%float.

(** The four [const] of the component; counts are lengths, printed in
    decimal; the quotient is a division of numbers. *)
Definition statistics (history : list DetectionResult) : Statistics :=
  let totalDetections := length history in
  let israeliProducts := length (filter (fun h => is_israeli_product h = true) history) in
  let safeProducts := totalDetections - israeliProducts in
  let averageConfidence :=
    (confidence_sum history / JsNumber.of_nat totalDetections)%float in
  {| totalDetections := totalDetections;
     israeliProducts := israeliProducts;
     safeProducts := safeProducts;
     averageConfidence := averageConfidence |}.

(** The panel returned for an empty history. *)
Definition empty_state : vnode :=
  el "div" "bg-white rounded-2xl shadow-lg p-6 border border-gray-100"
    [ el "div" "flex items-center space-x-2 mb-4"
        [ el "Clock" "h-5 w-5 text-gray-500" [];
          el "h3" "text-lg font-semibold text-gray-900" [Text "Riwayat Deteksi"] ];
      el "div" "text-center py-8"
        [ el "div"
            "bg-gray-100 rounded-full w-16 h-16 mx-auto mb-4 flex items-center justify-center"
            [ el "Clock" "h-6 w-6 text-gray-400" [] ];
          el "p" "text-gray-500" [Text "Belum ada riwayat deteksi"];
          el "p" "text-sm text-gray-400 mt-1" [Text "Mulai deteksi untuk melihat riwayat"] ] ].

(** The header with the statistics cards and the average. *)
Definition statistics_header (P : Platform) (s : Statistics) : vnode :=
  el "div" "p-4 bg-gradient-to-r from-blue-50 to-indigo-50 border-b border-gray-100"
    [ el "div" "flex items-center justify-between mb-3"
        [ el "div" "flex items-center space-x-2"
            [ el "TrendingUp" "h-5 w-5 text-blue-600" [];
              el "h3" "text-lg font-semibold text-gray-900" [Text "Riwayat Deteksi"] ];
          el "span" "text-sm text-gray-500"
            [Expr (pretty (totalDetections s)); Text " deteksi"] ];
      el "div" "grid grid-cols-3 gap-3"
        [ el "div" "bg-white rounded-lg p-3 border"
            [ el "div" "text-xs text-gray-500 mb-1" [Text "Total"];
              el "div" "text-lg font-bold text-gray-900"
                [Expr (pretty (totalDetections s))] ];
          el "div" "bg-white rounded-lg p-3 border"
            [ el "div" "text-xs text-red-600 mb-1" [Text "Israel"];
              el "div" "text-lg font-bold text-red-600"
                [Expr (pretty (israeliProducts s))] ];
          el "div" "bg-white rounded-lg p-3 border"
            [ el "div" "text-xs text-green-600 mb-1" [Text "Aman"];
              el "div" "text-lg font-bold text-green-600"
                [Expr (pretty (safeProducts s))] ] ];
      el "div" "mt-3 p-2 bg-white rounded-lg border"
        [ el "div" "flex justify-between items-center"
            [ el "span" "text-xs text-gray-500" [Text "Rata-rata Confidence"];
              el "span" "text-sm font-medium"
                [Expr (toFixed P (averageConfidence s * 100)%float 1); Text "%"] ];
          el "div" "w-full bg-gray-200 rounded-full h-1.5 mt-1"
            [ Element "div"
                [("className", "bg-blue-500 h-1.5 rounded-full transition-all duration-300");
                 ("style",
                  "width: " +:+ number_to_string P (averageConfidence s * 100)%float
                  +:+ "%")]
                [] ] ] ].

(** A red dot for each feature that is set. *)
Definition feature_dot (entry : string * bool) : list vnode :=
  let '(key, value) := entry in
  if value then
    [ Element "span"
        [("className", "inline-block w-2 h-2 bg-red-400 rounded-full");
         ("title", feature_title key)]
        [] ]
  else [].

(** The title of a node that is a feature dot. *)
Definition dot_title (n : vnode) : list string :=
  match n with
  | Element tag [(k1, cls); (k2, title)] [] =>
      if String.eqb tag "span" && String.eqb k1 "className"
         && String.eqb cls "inline-block w-2 h-2 bg-red-400 rounded-full"
         && String.eqb k2 "title"
      then [title] else []
  | _ => []
  end.

(** The titles of the feature dots of a tree, in document order. *)
Definition dot_titles (t : vnode) : list string :=
  flat_map dot_title (nodes t).

(** One line of the list: [history.map((result, index) => ...)]. *)
Definition history_item (P : Platform) (total : nat) (index : nat)
    (result : DetectionResult) : vnode :=
  el "div"
    ("p-4 border-b border-gray-100 hover:bg-gray-50 transition-colors cursor-pointer "
     +:+ (if (index =? total - 1)%nat then "border-b-0" else ""))
    [ el "div" "flex items-center justify-between mb-2"
        [ el "div" "flex items-center space-x-2"
            [ (if is_israeli_product result then el "XCircle" "h-4 w-4 text-red-500" []
               else el "CheckCircle" "h-4 w-4 text-green-500" []);
              el "span"
                ("text-sm font-medium " +:+
                 (if is_israeli_product result then "text-red-600" else "text-green-600"))
                [Expr (if is_israeli_product result then "Produk Israel"
                       else "Produk Aman")] ];
          el "span" "text-xs text-gray-500"
            [Text "#"; Expr (pretty (total - index))] ];
      el "div" "flex items-center justify-between"
        [ el "div" "flex items-center space-x-4"
            (el "div" "text-xs text-gray-500"
               [Text "Confidence: ";
                Expr (toFixed P (confidence result * 100)%float 1); Text "%"]
             :: match brand_info result with
                | Some info =>
                    [ el "div" "text-xs text-gray-500"
                        [Text "Brand: "; Expr (brand_name info)] ]
                | None => []
                end);
          el "div" "text-xs text-gray-400"
            [Expr (toLocaleTimeString P (timestamp result))] ];
      el "div" "flex items-center space-x-1 mt-2"
        (flat_map feature_dot (feature_entries (detected_features result))
         ++ (if forallb (fun entry => negb (snd entry))
                  (feature_entries (detected_features result))
             then [ el "span" "text-xs text-gray-400 italic" [Text "No features detected"] ]
             else [])) ].

(** [DetectionHistory({ history })]: the early return for an empty list
    comes before the statistics. *)
Definition DetectionHistory (P : Platform) (history : list DetectionResult) : vnode :=
  if (length history =? 0)%nat then empty_state
  else
    let stats := statistics history in
    el "div" "bg-white rounded-2xl shadow-lg border border-gray-100 overflow-hidden"
      [ statistics_header P stats;
        el "div" "max-h-96 overflow-y-auto"
          (imap (history_item P (totalDetections stats)) history) ].

(* ===================================================================== *)
(** * The public interface of [DetectionApi], and words for its results *)
(* ===================================================================== *)

(** A call of one of the public static methods, with its arguments. *)
Inductive Method :=
| AnalyzeImage (imageFile : File)
| AnalyzeImageFromBlob (imageBlob : File)
| AnalyzeBatch (imageFiles : list File)
| GetModelInfo
| GetBrandsDatabase
| HealthCheck.

Definition call (P : Platform) (m : Method) : Async (ApiResponse value) :=
  match m with
  | AnalyzeImage imageFile => DetectionApi.analyzeImage P imageFile
  | AnalyzeImageFromBlob imageBlob => DetectionApi.analyzeImageFromBlob P imageBlob
  | AnalyzeBatch imageFiles => DetectionApi.analyzeBatch P imageFiles
  | GetModelInfo => DetectionApi.getModelInfo P
  | GetBrandsDatabase => DetectionApi.getBrandsDatabase P
  | HealthCheck => DetectionApi.healthCheck P
  end.

(** The entry that [append(name, file)] adds. *)
Definition file_entry (n : string) (file : File) : FormEntry :=
  {| entry_name := n; entry_value := file; entry_filename := None |}.

(** The request that a call sends. *)
Definition request_of (P : Platform) (m : Method) : Request :=
  match m with
  | AnalyzeImage imageFile =>
      {| url := API_BASE_URL P +:+ "/analyze"; method := "POST";
         body := Some [file_entry "image" imageFile] |}
  | AnalyzeImageFromBlob imageBlob =>
      {| url := API_BASE_URL P +:+ "/analyze"; method := "POST";
         body := Some [{| entry_name := "image"; entry_value := imageBlob;
                          entry_filename := Some "capture.jpg" |}] |}
  | AnalyzeBatch imageFiles =>
      {| url := API_BASE_URL P +:+ "/analyze/batch"; method := "POST";
         body := Some (map (file_entry "images") imageFiles) |}
  | GetModelInfo =>
      {| url := API_BASE_URL P +:+ "/model/info"; method := "GET"; body := None |}
  | GetBrandsDatabase =>
      {| url := API_BASE_URL P +:+ "/brands/database"; method := "GET"; body := None |}
  | HealthCheck =>
      {| url := API_BASE_URL P +:+ "/health"; method := "GET"; body := None |}
  end.

(** The value is a string. *)
Definition is_text (v : value) : bool :=
  match v with VStr _ => true | _ => false end.

(** The error of a result is a string that is not empty. *)
Definition nonempty_message {T} (r : ApiResponse T) : Prop :=
  exists s, error r = Some (VStr s) /\ s <> "".

(** The result of a success with its payload. *)
Definition succeeded (v : value) : ApiResponse value :=
  {| success := true; data := Some v; error := None; message := None |}.

(** The result for a response that is not ok and whose body was read. *)
Definition refused (v : value) : ApiResponse value :=
  {| success := false; data := None; error := Some v; message := None |}.

(** The lines of the list in the tree of the history panel. *)
Definition history_lines (panel : vnode) : list vnode :=
  match panel with
  | Element _ _ [_; Element _ _ lines] => lines
  | _ => []
  end.

(* ===================================================================== *)
(** * app/page.tsx: the other handlers, and the events of the page *)
(* ===================================================================== *)

Module Handlers.

Import Page.

Definition setCapturedImage (image : option string) (st : State) : State :=
  {| isDetecting := isDetecting st;
     detectionResult := detectionResult st;
     error := error st;
     capturedImage := image;
     isWebcamActive := isWebcamActive st;
     detectionHistory := detectionHistory st |}.

Definition setIsWebcamActive (b : bool) (st : State) : State :=
  {| isDetecting := isDetecting st;
     detectionResult := detectionResult st;
     error := error st;
     capturedImage := capturedImage st;
     isWebcamActive := b;
     detectionHistory := detectionHistory st |}.

(** [toggleWebcam()]: the flag read in the condition is the one of the
    render in which the handler was made, the state before the click. *)
Definition toggleWebcam (st : State) : State :=
  let active := isWebcamActive st in
  let st := setIsWebcamActive (negb active) st in
  if active then setDetectionResult VNull (setCapturedImage None st) else st.

(** [handleSelectHistoryResult(result)]. *)
Definition handleSelectHistoryResult (result : value) (st : State) : State :=
  setCapturedImage None (setDetectionResult result st).

(** [capture()]. [webcam] is [webcamRef.current]: [None] when there is no
    webcam, and otherwise what [getScreenshot()] returns ([None] for
    [null]); an empty string is falsy. *)
Definition capture (P : Platform) (webcam : option (option string))
    (st : State) (log : list Request) : State * list Request :=
  match webcam with
  | None => (st, log)
  | Some None => (st, log)
  | Some (Some imageSrc) =>
      if negb (String.eqb imageSrc "")
      then detectProduct P imageSrc (setCapturedImage (Some imageSrc) st) log
      else (st, log)
  end.

(** [handleFileUpload(event)]. [file] is [event.target.files?.[0]];
    [readAsDataURL] is the browser's [FileReader]: the data URL handed to
    [onload], or [None] when the file cannot be read and [onload] is not
    called. *)
Definition handleFileUpload (P : Platform) (readAsDataURL : File -> option string)
    (file : option File) (st : State) (log : list Request)
    : State * list Request :=
  match file with
  | None => (st, log)
  | Some f =>
      match readAsDataURL f with
      | Some imageSrc =>
          detectProduct P imageSrc (setCapturedImage (Some imageSrc) st) log
      | None => (st, log)
      end
  end.

(** What the user does on the page. *)
Inductive Event :=
| Capture (webcam : option (option string))
| Upload (file : option File)
| ToggleWebcam
| SelectHistory (result : value).

(** One event, handled to its end. *)
Definition handle (P : Platform) (readAsDataURL : File -> option string)
    (ev : Event) (st : State) (log : list Request) : State * list Request :=
  match ev with
  | Capture webcam => capture P webcam st log
  | Upload file => handleFileUpload P readAsDataURL file st log
  | ToggleWebcam => (toggleWebcam st, log)
  | SelectHistory result => (handleSelectHistoryResult result st, log)
  end.

(** A sequence of events, each handled before the next one comes. *)
Fixpoint run (P : Platform) (readAsDataURL : File -> option string)
    (events : list Event) (st : State) (log : list Request)
    : State * list Request :=
  match events with
  | [] => (st, log)
  | ev :: rest =>
      let '(st', log') := handle P readAsDataURL ev st log in
      run P readAsDataURL rest st' log'
  end.

(** The image that an event submits for detection, if any. *)
Definition submitted (readAsDataURL : File -> option string) (ev : Event)
    : option string :=
  match ev with
  | Capture (Some (Some imageSrc)) =>
      if String.eqb imageSrc "" then None else Some imageSrc
  | Upload (Some f) => readAsDataURL f
  | _ => None
  end.

(** The result that the service gives for an image: the [data] of a
    successful answer, if the image decodes and the call succeeds. *)
Definition detected (P : Platform) (imageData : string) (log : list Request)
    : option value :=
  match dataURLtoFile P imageData "capture.jpg" with
  | Throw _ => None
  | Normal imageFile =>
      match fst (DetectionApi.analyzeImage P imageFile log) with
      | Normal result =>
          if success result then Some (read_optional (data result)) else None
      | Throw _ => None
      end
  end.


(** [text || 'Gagal melakukan deteksi produk'] on strings. *)
Definition or_default (text : string) : string :=
  if String.eqb text "" then "Gagal melakukan deteksi produk" else text.

(** The text that the banner owes to the outcome of the request: none
    when the service answers 2xx with JSON; for a refusal with a truthy
    [detail], that value as a string or, when it has no string form, the
    message of the TypeError. *)
Definition banner_text (P : Platform) (o : Outcome Response) : option string :=
  match o with
  | Throw e => Some (or_default (message_or e "Network error"))
  | Normal response =>
      match json response with
      | Throw e => Some (or_default (message_or e "Unknown error occurred"))
      | Normal body =>
          if ok response then None
          else
            match read_property P body "detail" with
            | Throw e => Some (or_default (message_or e "Unknown error occurred"))
            | Normal detail =>
                Some (if truthy detail then
                        match ToString P detail with
                        | Normal text => text
                        | Throw _ => to_primitive_message P
                        end
                      else DetectionApi.http_status_message response)
            end
      end
  end.

End Handlers.

(** The bucket that a class of the confidence bar stands for. *)
Definition bucket_of_bar (cls : string) : option Bucket :=
  if String.eqb cls "bg-green-500" then Some Green
  else if String.eqb cls "bg-yellow-500" then Some Yellow
  else if String.eqb cls "bg-orange-500" then Some Orange
  else if String.eqb cls "bg-red-500" then Some Red
  else None.

(* ===================================================================== *)
(** * components/SystemStatus.tsx: polls in a row *)
(* ===================================================================== *)

Module Polls.

Import SystemStatus.

(** The way the three promises of one poll settle. *)
Record Poll := {
  health : Outcome (ApiResponse HealthStatus);
  model : Outcome (ApiResponse ModelInfo);
  brands : Outcome (ApiResponse BrandDatabase);
}.

Definition poll (p : Poll) (st : State) : State :=
  fetchSystemStatus (health p) (model p) (brands p) st.


(** The three promises are fulfilled. *)
Definition fulfilled (p : Poll) : bool :=
  match health p, model p, brands p with
  | Normal _, Normal _, Normal _ => true
  | _, _, _ => false
  end.

(** What a poll stores as health status, if it stores one. *)
Definition health_update (p : Poll) : option (option HealthStatus) :=
  match health p with
  | Normal h => if fulfilled p && success h then Some (data h) else None
  | Throw _ => None
  end.

(** What a poll stores as model information, if it stores one. *)
Definition model_update (p : Poll) : option (option ModelInfo) :=
  match model p with
  | Normal m => if fulfilled p && success m then Some (data m) else None
  | Throw _ => None
  end.

(** What a poll stores as count, if it stores one. *)
Definition count_update (p : Poll) : option float :=
  match brands p with
  | Normal b =>
      if fulfilled p && success b
      then option_map totalProducts (data b) else None
  | Throw _ => None
  end.


End Polls.

(* ===================================================================== *)
(** * The detection service, and sample data *)
(* ===================================================================== *)

(** Modelled from the spec: the batch endpoint of the detection service,
    whose implementation is not among the sources. "Batch variant: same
    contract, multiple images in, ordered array of results out (order
    corresponds to submission order -- must be preserved by the service)".
    The answer carries one result per image of the submitted form, in the
    order of its entries; [detect] is the service's verdict on one image. *)
Definition batch_service (detect : File -> value) (request : Request) : Response :=
  {| status := 200;
     statusText := "OK";
     json :=
       Normal
         (VObj [("results",
                 VArr (map (fun entry => detect (entry_value entry))
                         (from_option id [] (body request))))]) |}.

(** A browser: V8's wording of the errors, and a network left to choose. *)
Definition browser (net : list Request -> Request -> Outcome Response) : Platform :=
  {| null_read_message := fun p =>
       "Cannot read properties of null (reading '" +:+ p +:+ "')";
     atob_message := "The string to be decoded is not correctly encoded.";
     to_primitive_message := "Cannot convert object to primitive value";
     number_to_string := fun _ => "?";
     toFixed := fun _ _ => "?";
     toLocaleString := fun t => t;
     toLocaleTimeString := fun t => t;
     NEXT_PUBLIC_API_URL := None;
     network := net |}.

(** No connection: every [fetch] is rejected. *)
Definition offline : Platform :=
  browser (fun _ _ => Throw (ErrorObject "TypeError" "Failed to fetch")).

(** A server that answers every request with the same response. *)
Definition answering (response : Response) : Platform :=
  browser (fun _ _ => Normal response).

(** A 500 answer whose body is plain text, as a server gives for an
    exception it did not handle: [response.json()] is rejected. *)
Definition plain_text_500 : Response :=
  {| status := 500;
     statusText := "Internal Server Error";
     json := Throw (ErrorObject "SyntaxError"
                      "Unexpected token I in JSON at position 0") |}.

(** A 422 answer of the service's framework for a request that fails
    validation: [detail] is a list of objects. *)
Definition validation_422 : Response :=
  {| status := 422;
     statusText := "Unprocessable Entity";
     json := Normal
               (VObj [("detail",
                       VArr [VObj [("loc", VArr [VStr "body"; VStr "image"]);
                                   ("msg", VStr "field required");
                                   ("type", VStr "value_error.missing")]])]) |}.

(** A 400 answer with a message in [detail]. *)
Definition bad_request_400 : Response :=
  {| status := 400;
     statusText := "Bad Request";
     json := Normal (VObj [("detail", VStr "File must be an image")]) |}.

(** A 400 answer whose [detail] is an empty list. *)
Definition empty_detail_400 : Response :=
  {| status := 400;
     statusText := "Bad Request";
     json := Normal (VObj [("detail", VArr [])]) |}.

(** A 400 answer whose [detail] is an object with a key [toString]. *)
Definition own_toString_400 : Response :=
  {| status := 400;
     statusText := "Bad Request";
     json := Normal (VObj [("detail", VObj [("toString", VStr "x")])]) |}.

(** A 503 answer with an empty JSON object. *)
Definition unavailable_503 : Response :=
  {| status := 503;
     statusText := "Service Unavailable";
     json := Normal (VObj []) |}.

Definition sample_jpeg : string := "data:image/jpeg;base64,/9j/4AAQ".

(** The same picture, its media type written in upper case. *)
Definition upper_case_jpeg : string := "data:IMAGE/JPEG;base64,/9j/4AAQ".

(** The file that [dataURLtoFile] makes of [sample_jpeg]. *)
Definition sample_capture : File :=
  {| bits := [255; 216; 255; 224; 0; 16]%N;
     name := "capture.jpg";
     type := "image/jpeg" |}.

(** The verdict of a service on an image, here a summary of its bytes. *)
Definition sample_verdict (is_israeli : bool) : value :=
  VObj [("is_israeli_product", VBool is_israeli);
        ("confidence", VNum 0.9%float);
        ("timestamp", VStr "2024-01-01T00:00:00")].

Definition sample_detect (f : File) : value :=
  sample_verdict (match bits f with 1%N :: _ => true | _ => false end).

(** A dashboard that already shows a result, twice in its history. *)
Definition busy_dashboard : Page.State :=
  {| Page.isDetecting := false;
     Page.detectionResult := sample_verdict true;
     Page.error := None;
     Page.capturedImage := Some sample_jpeg;
     Page.isWebcamActive := true;
     Page.detectionHistory := [sample_verdict true; sample_verdict true] |}.

(** A 200 answer to [/analyze]. *)
Definition verdict_200 : Response :=
  {| status := 200; statusText := "OK"; json := Normal (sample_verdict true) |}.

Definition picture (first : N) (n : string) : File :=
  {| bits := [first; 2%N; 3%N]; name := n; type := "image/jpeg" |}.

Definition sample_features (flag : bool) : DetectedFeatures :=
  {| barcode_729 := flag;
     made_in_israel_text := false;
     hebrew_text := flag;
     israeli_brand := false;
     kosher_certification := false |}.

Definition sample_result (verdict : bool) (c : float) (brand : option BrandInfo)
    : DetectionResult :=
  {| is_israeli_product := verdict;
     confidence := c;
     detected_features := sample_features verdict;
     brand_info := brand;
     timestamp := "2024-01-01T00:00:00";
     processing_time_ms := Some 12.5%float |}.

Definition sample_brand : BrandInfo :=
  {| brand_name := "Acme"; category := "personal_care"; risk_level := high |}.

(** A result whose processing time is reported as 0. *)
Definition instant_result : DetectionResult :=
  {| is_israeli_product := false;
     confidence := 0.1%float;
     detected_features := sample_features false;
     brand_info := None;
     timestamp := "2024-01-01T00:00:00";
     processing_time_ms := Some 0%float |}.

(** A history of two results. *)
Definition sample_history : list DetectionResult :=
  [sample_result true 0.9 (Some sample_brand); sample_result false 0.25 None].

(** The state of [SystemStatus] after a poll that found the service up. *)
Definition healthy_state : SystemStatus.State :=
  {| SystemStatus.modelInfo := None;
     SystemStatus.healthStatus :=
       Some {| health_status := "healthy"; model_ready := true |};
     SystemStatus.brandsCount := 42%float;
     SystemStatus.isLoading := false;
     SystemStatus.error := None |}.

(* ===================================================================== *)
(** * The browser functions on examples *)
(* ===================================================================== *)

Example atob_padded : atob offline "SGVsbG8=" = Normal "Hello".
Proof. reflexivity. Qed.

Example atob_unpadded : atob offline "SGVsbG8" = Normal "Hello".
Proof. reflexivity. Qed.

Example atob_whitespace : atob offline "SGVs bG8h" = Normal "Hello!".
Proof. reflexivity. Qed.

Example atob_bad_length :
  atob offline "S" = Throw (ErrorObject "InvalidCharacterError" (atob_message offline)).
Proof. reflexivity. Qed.

Example atob_of_undefined :
  atob offline "undefined"
  = Throw (ErrorObject "InvalidCharacterError" (atob_message offline)).
Proof. reflexivity. Qed.

Example ToString_empty_array : ToString offline (VArr []) = Normal "".
Proof. reflexivity. Qed.

Example ToString_array :
  ToString offline (VArr [VStr "a"; VNull; VArr [VStr "b"; VStr "c"]; VObj []])
  = Normal "a,,b,c,[object Object]".
Proof. reflexivity. Qed.

Example ToString_own_toString :
  ToString offline (VArr [VObj [("toString", VStr "x")]])
  = Throw (ErrorObject "TypeError" "Cannot convert object to primitive value").
Proof. reflexivity. Qed.

Example new_File_lower_case :
  type (new_File [] "capture.jpg" "IMAGE/JPEG") = "image/jpeg".
Proof. reflexivity. Qed.

Example split_commas : JsString.split "," "a,b,,c" = ["a"; "b"; ""; "c"].
Proof. reflexivity. Qed.

Example split_empty : JsString.split "," "" = [""].
Proof. reflexivity. Qed.

Example match_leftmost_lazy : match_colon_semicolon "a:b:c;d;" = Some "b:c".
Proof. reflexivity. Qed.

Example match_skips_broken_line :
  match_colon_semicolon (":a" +:+ String "010" "b;:c;") = Some "c".
Proof. reflexivity. Qed.

Example feature_titles :
  map feature_title (map fst (feature_entries (sample_features true)))
  = ["Barcode 729"; "Made In Israel Text"; "Hebrew Text"; "Israeli Brand";
     "Kosher Certification"].
Proof. reflexivity. Qed.

Example data_url_without_comma :
  dataURLtoFile offline "data:image/jpeg;base64" "capture.jpg"
  = Throw (ErrorObject "InvalidCharacterError" (atob_message offline)).
Proof. reflexivity. Qed.

Example thresholds :
  map getConfidenceColor [0.8%float; 0.79%float; 0.6%float; 0.4%float; 0.39%float]
  = ["text-red-600"; "text-orange-600"; "text-orange-600"; "text-yellow-600";
     "text-green-600"].
Proof. reflexivity. Qed.

(* ===================================================================== *)
(** * Properties: the confidence buckets *)
(* ===================================================================== *)

Section FloatOrder.

(** The comparison of the specification of binary64 is transitive: signs,
    then exponents, then mantissas. *)
Lemma SFleb_trans (x y z : spec_float) :
  SFleb x y = true -> SFleb y z = true -> SFleb x z = true.
Proof.
  unfold SFleb.
  destruct x as [sx|sx| |sx mx ex], y as [sy|sy| |sy my ey],
           z as [sz|sz| |sz mz ez]; simpl;
    repeat match goal with b : bool |- _ => destruct b end; simpl;
    try congruence.
  all: fold (Pos.compare mx my) (Pos.compare my mz) (Pos.compare mx mz).
  all: destruct (Z.compare_spec ex ey), (Z.compare_spec ey ez),
         (Z.compare_spec ex ez);
       destruct (Pos.compare_spec mx my), (Pos.compare_spec my mz),
         (Pos.compare_spec mx mz); simpl; try congruence; try lia.
Qed.

Lemma leb_trans (x y z : float) :
  PrimFloat.leb x y = true -> PrimFloat.leb y z = true ->
  PrimFloat.leb x z = true.
Proof.
  rewrite !leb_spec. apply SFleb_trans.
Qed.

(** A threshold reached by [c1] is reached by any [c2] above [c1]. *)
Lemma ge_mono (t c1 c2 : float) :
  JsNumber.le c1 c2 = true -> JsNumber.ge c1 t = true ->
  JsNumber.ge c2 t = true.
Proof.
  unfold JsNumber.le, JsNumber.ge. intros H12 H1.
  exact (leb_trans _ _ _ H1 H12).
Qed.

End FloatOrder.

(** Both functions return the class of the bucket the thresholds give, for
    every number (a number below 0.4, and NaN, fall in the last branch). *)
Lemma color_bucket (c : float) :
  bucket_of_color (getConfidenceColor c) = Some (bucket_of c)
  /\ bucket_of_bg (getConfidenceBgColor c) = Some (bucket_of c).
Proof.
  unfold getConfidenceColor, getConfidenceBgColor, bucket_of.
  destruct (JsNumber.ge c 0.8); [split; reflexivity|].
  destruct (JsNumber.ge c 0.6); [split; reflexivity|].
  destruct (JsNumber.ge c 0.4); split; reflexivity.
Qed.

Lemma bucket_of_mono (c1 c2 : float) :
  JsNumber.le c1 c2 = true -> bucket_le (bucket_of c1) (bucket_of c2).
Proof.
  intros Hle. unfold bucket_of, bucket_le.
  pose proof (ge_mono 0.8 c1 c2 Hle) as H8.
  pose proof (ge_mono 0.6 c1 c2 Hle) as H6.
  pose proof (ge_mono 0.4 c1 c2 Hle) as H4.
  destruct (JsNumber.ge c1 0.8); [rewrite H8 by reflexivity; simpl; lia|].
  destruct (JsNumber.ge c1 0.6);
    [rewrite H6 by reflexivity; destruct (JsNumber.ge c2 0.8); simpl; lia|].
  destruct (JsNumber.ge c1 0.4);
    [rewrite H4 by reflexivity;
     destruct (JsNumber.ge c2 0.8), (JsNumber.ge c2 0.6); simpl; lia|].
  destruct (JsNumber.ge c2 0.8), (JsNumber.ge c2 0.6), (JsNumber.ge c2 0.4);
    simpl; lia.
Qed.

(** A number of [0,1] is not NaN: it compares with itself. *)
Lemma unit_interval_le_refl (c : float) :
  JsNumber.in_unit_interval c -> JsNumber.le c c = true.
Proof.
  unfold JsNumber.in_unit_interval, JsNumber.le. rewrite !leb_spec.
  intros [H0 _]. unfold SFleb in *.
  destruct (Prim2SF c) as [s|s| |s m e]; simpl in *.
  - reflexivity.
  - destruct s; reflexivity.
  - destruct (Prim2SF 0); discriminate.
  - destruct s; rewrite Z.compare_refl;
      fold (Pos.compare m m); rewrite Pos.compare_refl; reflexivity.
Qed.

(** Each of the four buckets is reached inside [0,1]. *)
Lemma buckets_all_reached :
  map bucket_of [0%float; 0.5%float; 0.7%float; 1%float]
  = [Green; Yellow; Orange; Red].
Proof. reflexivity. Qed.

(** C2. For confidences [c1 <= c2] of the interval [0,1],
    [getConfidenceColor] and [getConfidenceBgColor] each return the class
    of one of the four buckets, the same bucket for both functions, and the
    bucket of [c2] is at least the bucket of [c1] in the order
    green < yellow < orange < red. (With [c1 = c2] this is the coverage of
    [0,1]: every confidence gets a bucket.) *)
Theorem confidence_buckets_monotone (c1 c2 : float) :
  JsNumber.in_unit_interval c1 -> JsNumber.in_unit_interval c2 ->
  JsNumber.le c1 c2 = true ->
  exists b1 b2,
    bucket_of_color (getConfidenceColor c1) = Some b1
    /\ bucket_of_bg (getConfidenceBgColor c1) = Some b1
    /\ bucket_of_color (getConfidenceColor c2) = Some b2
    /\ bucket_of_bg (getConfidenceBgColor c2) = Some b2
    /\ bucket_le b1 b2.
Proof.
  intros _ _ Hle.
  exists (bucket_of c1), (bucket_of c2).
  destruct (color_bucket c1) as [Hc1 Hb1], (color_bucket c2) as [Hc2 Hb2].
  repeat split; try assumption.
  apply bucket_of_mono, Hle.
Qed.

Lemma confidence_buckets_monotone_witness :
  exists b1 b2,
    bucket_of_color (getConfidenceColor 0.45%float) = Some b1
    /\ bucket_of_bg (getConfidenceBgColor 0.45%float) = Some b1
    /\ bucket_of_color (getConfidenceColor 0.8%float) = Some b2
    /\ bucket_of_bg (getConfidenceBgColor 0.8%float) = Some b2
    /\ bucket_le b1 b2.
Proof.
  apply (confidence_buckets_monotone 0.45%float 0.8%float).
  - split; reflexivity.
  - split; reflexivity.
  - reflexivity.
Defined.

(* ===================================================================== *)
(** * Properties: [dataURLtoFile] *)
(* ===================================================================== *)

Section DataUrl.

Import JsString.

Lemma charCodeAt_codes (s : string) (i : nat) :
  charCodeAt s i = codes s !! i.
Proof.
  revert i. induction s as [|c s IH]; intros [|i]; simpl; auto.
Qed.

Lemma length_codes (s : string) : length (codes s) = String.length s.
Proof. induction s; simpl; congruence. Qed.

Lemma codes_lt_256 (s : string) (i : nat) (c : N) :
  codes s !! i = Some c -> (c < 256)%N.
Proof.
  revert i. induction s as [|a s IH]; intros [|i]; simpl; try discriminate.
  - intros [= <-]. apply N_ascii_bounded.
  - apply IH.
Qed.

Lemma fill_u8arr_prefix (bstr : string) (n : nat) (u8arr : list N) :
  length u8arr = String.length bstr -> n <= length u8arr ->
  fill_u8arr bstr n u8arr = take n (codes bstr) ++ drop n u8arr.
Proof.
  revert u8arr. induction n as [|n IH]; intros u8arr Hlen Hn; simpl.
  - now rewrite drop_0.
  - rewrite IH by (rewrite length_insert; lia).
    destruct (lookup_lt_is_Some_2 (codes bstr) n) as [c Hc].
    { rewrite length_codes. lia. }
    rewrite charCodeAt_codes, Hc. simpl.
    rewrite (N.mod_small c 256) by (eapply codes_lt_256; eauto).
    rewrite (take_S_r _ _ _ Hc), <- app_assoc. f_equal. simpl.
    rewrite insert_take_drop by lia.
    rewrite drop_app_length'; [reflexivity|].
    rewrite length_take. lia.
Qed.

Lemma fill_u8arr_codes (bstr : string) :
  fill_u8arr bstr (String.length bstr) (replicate (String.length bstr) 0%N)
  = codes bstr.
Proof.
  rewrite fill_u8arr_prefix by (rewrite length_replicate; lia).
  rewrite <- (length_codes bstr), firstn_all.
  rewrite drop_ge by (rewrite length_replicate; lia).
  apply app_nil_r.
Qed.

End DataUrl.

Section Header.

Import JsString.

Local Arguments String.append !_ _ / : simpl nomatch.

Lemma split_not_nil (sep : ascii) (s : string) : split sep s <> [].
Proof.
  induction s as [|c s IH]; simpl; [discriminate|].
  destruct (Ascii.eqb c sep); [discriminate|].
  destruct (split sep s); [contradiction|discriminate].
Qed.

(** A text without the separator is its own single piece. *)
Lemma split_lacks (sep : ascii) (s : string) :
  lacks sep s = true -> split sep s = [s].
Proof.
  induction s as [|c s IH]; simpl; [reflexivity|].
  intros [Hc Hs]%andb_prop.
  apply negb_true_iff in Hc. rewrite Hc, (IH Hs). reflexivity.
Qed.

(** The first separator ends the first piece. *)
Lemma split_app (sep : ascii) (a b : string) :
  lacks sep a = true ->
  split sep (a +:+ String sep b) = a :: split sep b.
Proof.
  induction a as [|c a IH]; simpl.
  - intros _. now rewrite Ascii.eqb_refl.
  - intros [Hc Ha]%andb_prop.
    apply negb_true_iff in Hc. rewrite Hc, (IH Ha). reflexivity.
Qed.

Lemma lacks_app (c : ascii) (a b : string) :
  lacks c (a +:+ b) = lacks c a && lacks c b.
Proof.
  induction a as [|d a IH]; simpl; [reflexivity|].
  now rewrite IH, andb_assoc.
Qed.

Lemma append_assoc (a b c : string) : (a +:+ b) +:+ c = a +:+ (b +:+ c).
Proof. induction a as [|x a IH]; simpl; congruence. Qed.

(** The lazy group stops at the first [;]. *)
Lemma lazy_group_sound (s m : string) :
  lazy_group_then_semicolon s = Some m ->
  exists post, s = m +:+ String ";" post
               /\ no_line_terminator m = true /\ lacks ";" m = true.
Proof.
  revert m. induction s as [|c s IH]; simpl; [discriminate|]. intros m.
  destruct (Ascii.eqb_spec c ";") as [->|Hc].
  - intros [= <-]. exists s. repeat split.
  - destruct (is_line_terminator c) eqn:Hlt; [discriminate|].
    destruct (lazy_group_then_semicolon s) as [m'|]; [|discriminate].
    intros [= <-]. destruct (IH m' eq_refl) as (post & -> & Hm & Hs).
    exists post. simpl. rewrite Hlt, Hm, Hs.
    apply Ascii.eqb_neq in Hc. rewrite Hc. repeat split.
Qed.

Lemma lazy_group_exact (m post : string) :
  no_line_terminator m = true -> lacks ";" m = true ->
  lazy_group_then_semicolon (m +:+ String ";" post) = Some m.
Proof.
  induction m as [|c m IH]; simpl; [reflexivity|].
  intros [Hc Hm]%andb_prop [Hs Hl]%andb_prop.
  apply negb_true_iff in Hc, Hs. rewrite Hs, Hc, (IH Hm Hl). reflexivity.
Qed.

Lemma lazy_group_complete (m post : string) :
  no_line_terminator m = true ->
  is_Some (lazy_group_then_semicolon (m +:+ String ";" post)).
Proof.
  induction m as [|c m IH]; simpl; [eauto|].
  intros [Hc Hm]%andb_prop. apply negb_true_iff in Hc.
  destruct (Ascii.eqb c ";"); [eauto|]. rewrite Hc.
  destruct (IH Hm) as [m' ->]. simpl. eauto.
Qed.

Lemma match_sound (s m : string) :
  match_colon_semicolon s = Some m ->
  exists pre post,
    s = pre +:+ String ":" (m +:+ String ";" post)
    /\ no_line_terminator m = true /\ lacks ";" m = true.
Proof.
  induction s as [|c s IH]; simpl; [discriminate|].
  destruct (Ascii.eqb_spec c ":") as [->|Hc].
  - destruct (lazy_group_then_semicolon s) as [m'|] eqn:Hg.
    + intros [= <-]. destruct (lazy_group_sound _ _ Hg) as (post & -> & Hm & Hs).
      exists "", post. repeat split; assumption.
    + intros H. destruct (IH H) as (pre & post & -> & Hm & Hs).
      exists (String ":" pre), post. repeat split; assumption.
  - intros H. destruct (IH H) as (pre & post & -> & Hm & Hs).
    exists (String c pre), post. repeat split; assumption.
Qed.

Lemma match_complete (s : string) :
  has_colon_semicolon s -> is_Some (match_colon_semicolon s).
Proof.
  intros (pre & m & post & -> & Hm).
  induction pre as [|c pre IH]; simpl.
  - destruct (lazy_group_complete m post Hm) as [m' ->]. eauto.
  - destruct (Ascii.eqb c ":"); [|exact IH].
    destruct (lazy_group_then_semicolon _); [eauto|exact IH].
Qed.

(** [match] returns [null] exactly on the texts without such a part. *)
Lemma match_null_iff (s : string) :
  match_colon_semicolon s = None <-> ~ has_colon_semicolon s.
Proof.
  split.
  - intros Hnone [m Hm]%match_complete. congruence.
  - intros Hno. destruct (match_colon_semicolon s) as [m|] eqn:Hm; [|reflexivity].
    destruct (match_sound _ _ Hm) as (pre & post & -> & Hlt & _).
    exfalso. apply Hno. exists pre, m, post. auto.
Qed.

Lemma header_of_app (header rest : string) :
  lacks "," header = true ->
  header_of (header +:+ String "," rest) = header.
Proof. intros H. unfold header_of. now rewrite split_app. Qed.

Lemma header_of_lacks (s : string) : lacks "," s = true -> header_of s = s.
Proof. intros H. unfold header_of. now rewrite split_lacks. Qed.

End Header.

Section Decoding.

Import JsString.

Local Arguments String.append !_ _ / : simpl nomatch.

Lemma lacks_elem_of (c : ascii) (s : string) :
  lacks c s = true <-> c ∉ list_ascii_of_string s.
Proof.
  induction s as [|d s IH]; simpl.
  - split; [intros _; apply not_elem_of_nil|reflexivity].
  - rewrite andb_true_iff, negb_true_iff, Ascii.eqb_neq, IH, not_elem_of_cons.
    split; intros [? ?]; split; auto.
Qed.

(** Removing the padding only removes [=] signs. *)
Lemma strip_padding_keeps (c : ascii) (l : list ascii) :
  c <> "="%char -> c ∈ l -> c ∈ strip_padding l.
Proof.
  intros Hc Hin. unfold strip_padding.
  repeat match goal with
  | |- context [match ?x with _ => _ end] => destruct x eqn:?; subst
  end; try assumption;
  repeat match goal with
  | H : c ∈ _ :: _ |- _ => apply elem_of_cons in H as [->|H]; [congruence|]
  end; assumption.
Qed.

(** A text that [atob] accepts holds no comma. *)
Lemma atob_lacks_comma (P : Platform) (data bstr : string) :
  atob P data = Normal bstr -> lacks "," data = true.
Proof.
  unfold atob. intros Hatob. apply lacks_elem_of. intros Hin.
  set (chars := filter _ _) in Hatob.
  assert (Hc : ","%char ∈ chars).
  { apply list_elem_of_filter. split; [reflexivity|assumption]. }
  set (chars' := if (length chars mod 4 =? 0)%nat then _ else _) in Hatob.
  assert (Hc' : ","%char ∈ chars').
  { subst chars'. destruct (length chars mod 4 =? 0)%nat; [|assumption].
    apply list_elem_of_In, in_rev, list_elem_of_In.
    rewrite rev_involutive.
    apply strip_padding_keeps; [discriminate|].
    apply list_elem_of_In, in_rev, list_elem_of_In. now rewrite rev_involutive. }
  destruct (length chars' mod 4 =? 1)%nat; [discriminate|].
  destruct (mapM base64_value chars') as [sextets|] eqn:Hm; [|discriminate].
  apply mapM_Some in Hm.
  apply list_elem_of_lookup in Hc' as [i Hi].
  destruct (Forall2_lookup_l _ _ _ _ _ Hm Hi) as (y & _ & Hy).
  discriminate Hy.
Qed.

(** C10, as the code has it. [dataURLtoFile] is partial. When the text
    before the first comma has no part of the form [:<mime>;] the call
    throws a TypeError (the match is [null], and its element 1 is read).
    For a data URL [data:<mime>;<parameters>,<payload>] ([parameters] is
    [base64]) whose payload [atob] decodes, it returns a file whose bytes
    are the decoded bytes, in order, whose name is the one given, and whose
    type is what the File constructor makes of [<mime>]: [<mime>] in ASCII
    lower case, or the empty text when [<mime>] has a character outside
    U+0020..U+007E. The type is [<mime>] itself when that is printable
    ASCII without upper-case letters. *)
Theorem dataURLtoFile_partial (P : Platform) (filename : string) :
  (forall dataurl,
      ~ has_colon_semicolon (header_of dataurl) ->
      dataURLtoFile P dataurl filename
      = Throw (ErrorObject "TypeError" (null_read_message P "1")))
  /\ (forall mime parameters payload bstr,
         lacks "," mime = true -> lacks ";" mime = true ->
         no_line_terminator mime = true ->
         lacks "," parameters = true ->
         atob P payload = Normal bstr ->
         dataURLtoFile P
           ("data:" +:+ mime +:+ ";" +:+ parameters +:+ "," +:+ payload) filename
         = Normal {| bits := codes bstr;
                     name := filename;
                     type := if all_printable mime
                             then ascii_lowercase mime else "" |}
         /\ (all_printable mime = true -> ascii_lowercase mime = mime ->
             dataURLtoFile P
               ("data:" +:+ mime +:+ ";" +:+ parameters +:+ "," +:+ payload) filename
             = Normal {| bits := codes bstr; name := filename; type := mime |})).
Proof.
  split.
  - intros dataurl Hno. unfold dataURLtoFile.
    apply match_null_iff in Hno. unfold header_of in Hno. now rewrite Hno.
  - intros mime parameters payload bstr Hcomma Hsemi Hlt Hparameters Hatob.
    pose proof (atob_lacks_comma _ _ _ Hatob) as Hpayload.
    assert (Hfile : dataURLtoFile P
                      ("data:" +:+ mime +:+ ";" +:+ parameters +:+ "," +:+ payload)
                      filename
                    = Normal (new_File (codes bstr) filename mime)).
    { unfold dataURLtoFile.
      assert (Hsplit : split ","
                         ("data:" +:+ mime +:+ ";" +:+ parameters +:+ "," +:+ payload)
                       = ["data:" +:+ mime +:+ ";" +:+ parameters; payload]).
      { replace ("data:" +:+ mime +:+ ";" +:+ parameters +:+ "," +:+ payload)
          with (("data:" +:+ mime +:+ ";" +:+ parameters) +:+ String "," payload).
        - rewrite split_app, (split_lacks _ _ Hpayload); [reflexivity|].
          rewrite !lacks_app, Hcomma, Hparameters. reflexivity.
        - rewrite !append_assoc. reflexivity. }
      assert (Hmatch : match_colon_semicolon
                         ("data:" +:+ mime +:+ ";" +:+ parameters)
                       = Some mime).
      { simpl. now rewrite (lazy_group_exact mime parameters Hlt Hsemi). }
      rewrite Hsplit. cbn [nth]. rewrite Hmatch.
      change (from_option id "undefined" _) with payload.
      rewrite Hatob, fill_u8arr_codes. reflexivity. }
    rewrite Hfile. unfold new_File. split; [reflexivity|].
    intros Hprintable Hlower. now rewrite Hprintable, Hlower.
Qed.

Lemma dataURLtoFile_partial_witness :
  dataURLtoFile offline "hello" "capture.jpg"
  = Throw (ErrorObject "TypeError" (null_read_message offline "1"))
  /\ dataURLtoFile offline sample_jpeg "capture.jpg"
     = Normal {| bits := [255; 216; 255; 224; 0; 16]%N;
                 name := "capture.jpg";
                 type := "image/jpeg" |}.
Proof.
  destruct (dataURLtoFile_partial offline "capture.jpg") as [Hthrow Hfile].
  split.
  - apply Hthrow. apply match_null_iff. reflexivity.
  - apply (Hfile "image/jpeg" "base64" "/9j/4AAQ"
             (string_of_list_ascii (map ascii_of_N [255; 216; 255; 224; 0; 16]%N)));
      reflexivity.
Defined.

(** The claim C10 fails on the type of the file. The media type of a data
    URL may be written in upper case: the text extracted from the header
    is [IMAGE/JPEG], and the type of the file is [image/jpeg]. When the
    extracted text ends with a tab, the file has no type at all. *)
Lemma dataURLtoFile_type_not_extracted :
  (match_colon_semicolon (header_of upper_case_jpeg) = Some "IMAGE/JPEG"
   /\ exists f,
        dataURLtoFile offline upper_case_jpeg "capture.jpg" = Normal f
        /\ bits f = [255; 216; 255; 224; 0; 16]%N
        /\ type f = "image/jpeg"
        /\ type f <> "IMAGE/JPEG")
  /\ (match_colon_semicolon
        (header_of ("data:image/png" +:+ String "009" ";base64,QUJD"))
      = Some ("image/png" +:+ String "009" "")
      /\ exists f,
           dataURLtoFile offline
             ("data:image/png" +:+ String "009" ";base64,QUJD") "capture.jpg"
           = Normal f
           /\ bits f = [65; 66; 67]%N
           /\ type f = "").
Proof.
  split.
  - split; [reflexivity|]. eexists. split; [reflexivity|].
    split; [reflexivity|]. split; [reflexivity|]. discriminate.
  - split; [reflexivity|]. eexists. split; [reflexivity|].
    split; reflexivity.
Qed.

End Decoding.

(* ===================================================================== *)
(** * Properties: the API client *)
(* ===================================================================== *)

Section ApiClient.

Import DetectionApi.

Lemma http_status_message_nonempty (response : Response) :
  http_status_message response <> "".
Proof. unfold http_status_message. discriminate. Qed.

(** A truthy string is not empty. *)
Lemma truthy_text (s : string) : truthy (VStr s) = true -> s <> "".
Proof.
  simpl. intros H ->. discriminate.
Qed.

(** [handleResponse] on a response that is not ok. *)
Lemma handleResponse_not_ok (P : Platform) (response : Response)
    (log : list Request) :
  ok response = false ->
  handleResponse P response log
  = (Normal
       match json response with
       | Throw e => failure (message_or e "Unknown error occurred")
       | Normal body =>
           match read_property P body "detail" with
           | Throw e => failure (message_or e "Unknown error occurred")
           | Normal detail =>
               refused (js_or detail (VStr (http_status_message response)))
           end
       end, log).
Proof.
  intros Hok. unfold handleResponse, try_catch, bind, await, ret.
  rewrite Hok. simpl.
  destruct (json response) as [body|e]; [|reflexivity].
  destruct (read_property P body "detail"); reflexivity.
Qed.

(** [handleResponse] on a response that is ok. *)
Lemma handleResponse_ok (P : Platform) (response : Response)
    (log : list Request) :
  ok response = true ->
  handleResponse P response log
  = (Normal
       match json response with
       | Throw e => failure (message_or e "Unknown error occurred")
       | Normal v => succeeded v
       end, log).
Proof.
  intros Hok. unfold handleResponse, try_catch, bind, await, ret.
  rewrite Hok. simpl.
  destruct (json response); reflexivity.
Qed.

(** [handleResponse] never rejects, and sends nothing. *)
Lemma handleResponse_total (P : Platform) (response : Response)
    (log : list Request) :
  exists r, handleResponse P response log = (Normal r, log).
Proof.
  destruct (ok response) eqn:Hok.
  - rewrite handleResponse_ok by assumption. eauto.
  - rewrite handleResponse_not_ok by assumption. eauto.
Qed.

(** A response that is not ok and whose body is JSON, not [null], with a
    [detail] that is a string or is falsy (absent, empty): the error is
    [detail] if that is a string that is not empty, and the text
    [HTTP <status>: <statusText>] otherwise, in both cases a string that
    is not empty. *)
Lemma handleResponse_json_body (P : Platform) (response : Response)
    (log : list Request) (body detail : value) :
  ok response = false ->
  json response = Normal body ->
  read_property P body "detail" = Normal detail ->
  is_text detail = true \/ truthy detail = false ->
  exists r,
    handleResponse P response log = (Normal r, log)
    /\ success r = false
    /\ error r = Some (if truthy detail then detail
                       else VStr (http_status_message response))
    /\ nonempty_message r.
Proof.
  intros Hok Hjson Hread Hdetail.
  rewrite (handleResponse_not_ok P response log Hok), Hjson, Hread.
  eexists. split; [reflexivity|]. split; [reflexivity|]. split; [reflexivity|].
  unfold nonempty_message, js_or. simpl.
  destruct (truthy detail) eqn:Ht.
  - destruct Hdetail as [Htext|]; [|discriminate].
    destruct detail; try discriminate.
    eexists. split; [reflexivity|]. now apply truthy_text.
  - eexists. split; [reflexivity|]. apply http_status_message_nonempty.
Qed.

(** C3 on the code. [handleResponse] answers every response that is not
    ok with a result whose [success] is false and which carries an error:
    for a JSON body, its truthy [detail] or else the text
    [HTTP <status>: <statusText>]. But [response.json()] is awaited, and
    [detail] is read, inside [try]: when the body is not JSON (or is
    [null]), the error is the message of the exception (or ['Unknown
    error occurred']), whatever the status line, and not the text to
    which the code falls back when a JSON body has no [detail]. For a 500
    whose body is the plain text [Internal Server Error], the result
    carries [Unexpected token I in JSON at position 0]: neither a [detail]
    of the server nor the message built from the status code and text. *)
Theorem handleResponse_non_json_body :
  (forall P response log,
      ok response = false ->
      exists r e,
        handleResponse P response log = (Normal r, log)
        /\ success r = false
        /\ error r = Some e
        /\ (forall t,
              json response = Throw t ->
              e = VStr (message_or t "Unknown error occurred"))
        /\ (forall body detail,
              json response = Normal body ->
              read_property P body "detail" = Normal detail ->
              e = if truthy detail then detail
                  else VStr (http_status_message response))
        /\ (forall body t,
              json response = Normal body ->
              read_property P body "detail" = Throw t ->
              e = VStr (message_or t "Unknown error occurred")))
  /\ ok plain_text_500 = false
  /\ json plain_text_500
     = Throw (ErrorObject "SyntaxError" "Unexpected token I in JSON at position 0")
  /\ http_status_message plain_text_500 = "HTTP 500: Internal Server Error"
  /\ exists r,
       handleResponse offline plain_text_500 [] = (Normal r, [])
       /\ success r = false
       /\ error r = Some (VStr "Unexpected token I in JSON at position 0")
       /\ error r <> Some (VStr (http_status_message plain_text_500)).
Proof.
  split.
  - intros P response log Hok.
    rewrite (handleResponse_not_ok P response log Hok).
    destruct (json response) as [body|t].
    + destruct (read_property P body "detail") as [detail|t] eqn:Hread.
      * eexists _, _. split; [reflexivity|]. split; [reflexivity|].
        split; [reflexivity|]. split; [discriminate|]. split.
        -- intros body' detail' [= <-] Hread'.
           rewrite Hread in Hread'. now injection Hread' as <-.
        -- intros body' t [= <-] Hread'. congruence.
      * eexists _, _. split; [reflexivity|]. split; [reflexivity|].
        split; [reflexivity|]. split; [discriminate|]. split.
        -- intros body' detail' [= <-] Hread'. congruence.
        -- intros body' t' [= <-] Hread'.
           rewrite Hread in Hread'. now injection Hread' as <-.
    + eexists _, _. split; [reflexivity|]. split; [reflexivity|].
      split; [reflexivity|]. split; [now intros t' [= <-]|].
      split; intros body ? [=].
  - split; [reflexivity|]. split; [reflexivity|]. split; [reflexivity|].
    eexists. split; [reflexivity|]. split; [reflexivity|].
    split; [reflexivity|]. discriminate.
Qed.

(** The entries of a batch: one per file, in the order of the list. *)
Lemma append_images_spec (formData : FormData) (imageFiles : list File) :
  append_images formData imageFiles
  = formData ++ map (file_entry "images") imageFiles.
Proof.
  unfold append_images. revert formData.
  induction imageFiles as [|file files IH]; intros formData; simpl.
  - now rewrite app_nil_r.
  - rewrite IH. unfold append. now rewrite <- app_assoc.
Qed.

(** Every method sends its one request, and hands the response to
    [handleResponse]; a rejected [fetch] is caught. *)
Lemma call_unfold (P : Platform) (m : Method) (log : list Request) :
  call P m log
  = match network P log (request_of P m) with
    | Normal response => handleResponse P response (log ++ [request_of P m])
    | Throw e =>
        (Normal (failure (message_or e "Network error")), log ++ [request_of P m])
    end.
Proof.
  destruct m; try reflexivity.
  simpl. unfold analyzeBatch. rewrite append_images_spec. reflexivity.
Qed.

(** The part of C8 that holds. Every public method of [DetectionApi]
    settles with a result, whatever the network does, after sending
    exactly one request. The result is a success exactly when the network answered,
    the status is 2xx and the body is JSON; then it carries the parsed
    body. In every other case (network error, status outside 2xx, body
    that is not JSON) [success] is false and there is an error, which is a
    string unless the status is outside 2xx and the JSON body has a truthy
    [detail] that is not a string: that value is handed over as it is. *)
Theorem api_methods_total (P : Platform) (m : Method) (log : list Request) :
  exists r,
    call P m log = (Normal r, log ++ [request_of P m])
    /\ (success r = true <->
        exists response v,
          network P log (request_of P m) = Normal response
          /\ ok response = true /\ json response = Normal v)
    /\ (forall response v,
          network P log (request_of P m) = Normal response ->
          ok response = true -> json response = Normal v ->
          r = succeeded v)
    /\ (success r = false ->
        exists e,
          error r = Some e
          /\ (is_text e = true
              \/ exists response fields,
                   network P log (request_of P m) = Normal response
                   /\ ok response = false
                   /\ json response = Normal (VObj fields)
                   /\ e = field fields "detail"
                   /\ truthy e = true)).
Proof.
  rewrite call_unfold.
  destruct (network P log (request_of P m)) as [response|e].
  - destruct (ok response) eqn:Hok.
    + rewrite handleResponse_ok by assumption.
      destruct (json response) as [v|e] eqn:Hjson.
      * eexists. split; [reflexivity|]. repeat split.
        -- intros _. eauto.
        -- intros response' v' [= <-] _ Hv. congruence.
        -- discriminate.
      * eexists. split; [reflexivity|]. repeat split.
        -- discriminate.
        -- intros (response' & v & [= <-] & _ & Hv). congruence.
        -- intros response' v' [= <-] _ Hv. congruence.
        -- intros _. eexists. split; [reflexivity|]. now left.
    + rewrite handleResponse_not_ok by assumption.
      eexists. split; [reflexivity|].
      assert (Hfalse : false = true <->
                exists response' v,
                  Normal response = Normal response'
                  /\ ok response' = true /\ json response' = Normal v).
      { split; [discriminate|].
        intros (response' & v & [= <-] & Hok' & _). congruence. }
      destruct (json response) as [body|e] eqn:Hjson.
      * destruct body; simpl;
          (split; [exact Hfalse|]);
          (split; [intros response' v' [= <-]; congruence|]);
          intros _; eexists; (split; [reflexivity|]);
          try (now left).
        unfold js_or. destruct (truthy (field fields "detail")) eqn:Ht;
          [|now left].
        right. exists response, fields. repeat split; assumption.
      * simpl. split; [exact Hfalse|].
        split; [intros response' v' [= <-]; congruence|].
        intros _. eexists. split; [reflexivity|]. now left.
  - eexists. split; [reflexivity|]. repeat split.
    + discriminate.
    + intros (response & v & [=] & _).
    + intros response v [=].
    + intros _. eexists. split; [reflexivity|]. now left.
Qed.

(** C8 on the code: the answer of the service's framework to a request
    that does not validate, a 422 whose [detail] is a list of objects.
    [analyzeImage] settles with a result whose [success] is false, but the
    [error] of the result is that list and not a string, against the
    declaration [error?: string] of [ApiResponse]. *)
Theorem analyzeImage_validation_error :
  exists r,
    call (answering validation_422) (AnalyzeImage (picture 1 "a.jpg")) []
    = (Normal r, [request_of (answering validation_422)
                    (AnalyzeImage (picture 1 "a.jpg"))])
    /\ success r = false
    /\ exists e, error r = Some e /\ is_text e = false.
Proof.
  eexists. split; [reflexivity|]. split; [reflexivity|].
  eexists. split; reflexivity.
Qed.

(** C7. The files of a batch are appended to the form in the order given,
    under the name [images], and sent in one request, whatever the network
    answers. When the service answers a batch as the specification
    requires (one result per image, in the order of submission), the
    result of [analyzeBatch] carries the array of results in the order of
    the files: its i-th element is the verdict on the i-th file. *)
Theorem analyzeBatch_order (P : Platform) (imageFiles : list File)
    (log : list Request) :
  snd (analyzeBatch P imageFiles log)
  = log ++ [{| url := API_BASE_URL P +:+ "/analyze/batch";
               method := "POST";
               body := Some (map (file_entry "images") imageFiles) |}]
  /\ forall detect : File -> value,
      (forall log request,
          url request = API_BASE_URL P +:+ "/analyze/batch" ->
          network P log request = Normal (batch_service detect request)) ->
      fst (analyzeBatch P imageFiles log)
      = Normal (succeeded (VObj [("results", VArr (map detect imageFiles))])).
Proof.
  change (analyzeBatch P imageFiles log) with (call P (AnalyzeBatch imageFiles) log).
  rewrite call_unfold. simpl request_of. split.
  - destruct (network P log _) as [response|e]; [|reflexivity].
    destruct (handleResponse_total P response
                (log ++ [{| url := API_BASE_URL P +:+ "/analyze/batch";
                            method := "POST";
                            body := Some (map (file_entry "images") imageFiles) |}]))
      as [r ->].
    reflexivity.
  - intros detect Hnet.
    rewrite Hnet by reflexivity.
    rewrite handleResponse_ok by reflexivity.
    simpl. rewrite map_map. reflexivity.
Qed.

Lemma analyzeBatch_order_witness :
  snd (analyzeBatch (browser (fun _ request => Normal (batch_service sample_detect request)))
         [picture 1 "a.jpg"; picture 0 "b.jpg"; picture 1 "c.jpg"] [])
  = [{| url := "http://localhost:8000/analyze/batch";
        method := "POST";
        body := Some [file_entry "images" (picture 1 "a.jpg");
                      file_entry "images" (picture 0 "b.jpg");
                      file_entry "images" (picture 1 "c.jpg")] |}]
  /\ fst (analyzeBatch (browser (fun _ request => Normal (batch_service sample_detect request)))
            [picture 1 "a.jpg"; picture 0 "b.jpg"; picture 1 "c.jpg"] [])
     = Normal (succeeded
                 (VObj [("results",
                         VArr [sample_verdict true; sample_verdict false;
                               sample_verdict true])])).
Proof.
  destruct (analyzeBatch_order
              (browser (fun _ request => Normal (batch_service sample_detect request)))
              [picture 1 "a.jpg"; picture 0 "b.jpg"; picture 1 "c.jpg"] [])
    as [Hrequest Hresult].
  split; [exact Hrequest|].
  apply (Hresult sample_detect). reflexivity.
Defined.

End ApiClient.

(* ===================================================================== *)
(** * Properties: [detectProduct] *)
(* ===================================================================== *)

Section Detection.

Import Page.

(** [slice(0, 9)] keeps the first nine elements. *)
Lemma slice_0_9 {A} (l : list A) : slice 0 9 l = take 9 l.
Proof. reflexivity. Qed.

(** Once the image is decoded, [detectProduct] calls [analyzeImage] once
    and goes by its outcome. *)
Lemma detectProduct_unfold (P : Platform) (imageData : string) (st : State)
    (log : list Request) (imageFile : File) :
  dataURLtoFile P imageData "capture.jpg" = Normal imageFile ->
  exists r,
    DetectionApi.analyzeImage P imageFile log
    = (Normal r, log ++ [request_of P (AnalyzeImage imageFile)])
    /\ detectProduct P imageData st log
       = (setIsDetecting false
            (if success r then
               setDetectionHistory
                 (fun prev => read_optional (data r) :: slice 0 9 prev)
                 (setDetectionResult (read_optional (data r))
                    (setError None (setIsDetecting true st)))
             else
               on_catch
                 (thrown_by_new_Error P
                    (js_or (read_optional (error_of r))
                       (VStr "Gagal melakukan deteksi produk")))
                 (setError None (setIsDetecting true st))),
          log ++ [request_of P (AnalyzeImage imageFile)]).
Proof.
  intros Hfile.
  assert (Hcall : exists r,
             DetectionApi.analyzeImage P imageFile log
             = (Normal r, log ++ [request_of P (AnalyzeImage imageFile)])).
  { change (DetectionApi.analyzeImage P imageFile log)
      with (call P (AnalyzeImage imageFile) log).
    rewrite call_unfold.
    destruct (network P log (request_of P (AnalyzeImage imageFile))); [|eauto].
    apply handleResponse_total. }
  destruct Hcall as [r Hcall]. exists r. split; [exact Hcall|].
  unfold detectProduct. rewrite Hfile, Hcall.
  destruct (success r); reflexivity.
Qed.

(** When the image cannot be decoded, nothing is sent: the exception goes
    to the banner, and the result and the history stay. *)
Lemma detectProduct_bad_image (P : Platform) (imageData : string) (st : State)
    (log : list Request) (e : Thrown) :
  dataURLtoFile P imageData "capture.jpg" = Throw e ->
  detectProduct P imageData st log
  = ({| isDetecting := false;
        detectionResult := detectionResult st;
        error := Some (message_or e "Terjadi kesalahan saat deteksi");
        capturedImage := capturedImage st;
        isWebcamActive := isWebcamActive st;
        detectionHistory := detectionHistory st |}, log).
Proof.
  intros Hfile. unfold detectProduct. rewrite Hfile. reflexivity.
Qed.

(** Induction on values, through the elements of arrays. *)
Lemma value_induction (Q : value -> Prop) :
  Q VUndefined -> Q VNull -> (forall b, Q (VBool b)) -> (forall x, Q (VNum x)) ->
  (forall s, Q (VStr s)) ->
  (forall elements, Forall Q elements -> Q (VArr elements)) ->
  (forall fields, Q (VObj fields)) ->
  forall v, Q v.
Proof.
  intros Hu Hn Hb Hx Hs Ha Ho. fix IH 1.
  intros [| |b|x|s|elements|fields].
  - exact Hu.
  - exact Hn.
  - apply Hb.
  - apply Hx.
  - apply Hs.
  - apply Ha. induction elements as [|e elements IHe]; constructor.
    + apply IH.
    + exact IHe.
  - apply Ho.
Qed.

(** The only exception of ToString is the TypeError of an object that has
    no primitive form. *)
Lemma ToString_throws (P : Platform) (v : value) (e : Thrown) :
  ToString P v = Throw e ->
  e = ErrorObject "TypeError" (to_primitive_message P).
Proof.
  revert e. induction v as [| |b|x|s|elements IH|fields] using value_induction;
    intros e; simpl; try discriminate.
  - destruct (join_elements (ToString P) elements) as [pieces|t] eqn:Hjoin;
      [discriminate|].
    intros [= <-]. revert t Hjoin.
    induction IH as [|v elements Hv _ IHelements]; intros t; simpl; [discriminate|].
    destruct (match v with
              | VUndefined | VNull => Normal ""
              | _ => ToString P v
              end) as [piece|t'] eqn:Hpiece.
    + destruct (join_elements (ToString P) elements) as [pieces|t''];
        [discriminate|].
      intros [= <-]. now apply IHelements.
    + intros [= <-]. apply Hv. destruct v; try discriminate; exact Hpiece.
  - destruct (has_own fields "toString"); [|discriminate]. now intros [= <-].
Qed.

(** The message that the [catch] block stores after
    [throw new Error(message)], for a truthy message. *)
Lemma thrown_message (P : Platform) (v : value) :
  truthy v = true ->
  message_or (thrown_by_new_Error P v) "Terjadi kesalahan saat deteksi"
  = match ToString P v with
    | Normal text => text
    | Throw _ => to_primitive_message P
    end.
Proof.
  intros Ht. unfold thrown_by_new_Error, new_Error.
  destruct v; try discriminate Ht;
    match goal with
    | |- context [ToString P ?v] =>
        destruct (ToString P v) as [text|e] eqn:Hs;
        [reflexivity|now rewrite (ToString_throws P _ e Hs)]
    end.
Qed.

(** [result.error || 'Gagal ...'] then [new Error(...).message], when the
    error is a string. *)
Lemma thrown_or_default (P : Platform) (text : string) :
  message_or
    (thrown_by_new_Error P
       (js_or (VStr text) (VStr "Gagal melakukan deteksi produk")))
    "Terjadi kesalahan saat deteksi"
  = Handlers.or_default text.
Proof.
  unfold js_or, Handlers.or_default. simpl.
  destruct (String.eqb text ""); reflexivity.
Qed.

(** A truthy value is its own [||]. *)
Lemma js_or_truthy (a b : value) : truthy a = true -> js_or a b = a.
Proof. unfold js_or. now intros ->. Qed.

(** A falsy value gives way in [||]. *)
Lemma js_or_falsy (a b : value) : truthy a = false -> js_or a b = b.
Proof. unfold js_or. now intros ->. Qed.

(** A failed call leaves the result and the history, and stores the
    message of what the [catch] block receives. *)
Lemma detectProduct_failure (P : Platform) (imageData : string)
    (st : State) (log : list Request) (imageFile : File)
    (r : ApiResponse value) :
  dataURLtoFile P imageData "capture.jpg" = Normal imageFile ->
  fst (DetectionApi.analyzeImage P imageFile log) = Normal r ->
  success r = false ->
  detectProduct P imageData st log
  = ({| isDetecting := false;
        detectionResult := detectionResult st;
        error :=
          Some (message_or
                  (thrown_by_new_Error P
                     (js_or (read_optional (error_of r))
                        (VStr "Gagal melakukan deteksi produk")))
                  "Terjadi kesalahan saat deteksi");
        capturedImage := capturedImage st;
        isWebcamActive := isWebcamActive st;
        detectionHistory := detectionHistory st |},
     log ++ [request_of P (AnalyzeImage imageFile)]).
Proof.
  intros Hfile Hcall Hfail.
  destruct (detectProduct_unfold P imageData st log imageFile Hfile)
    as (r' & Hcall' & ->).
  rewrite Hcall' in Hcall. simpl in Hcall. injection Hcall as ->.
  rewrite Hfail. reflexivity.
Qed.

(** The banner is shown for every stored text but the empty one. *)
Lemma banner_none (st : State) (text : string) :
  error st = Some text -> (banner st = None <-> text = "").
Proof.
  intros H. unfold banner. rewrite H.
  destruct (String.eqb_spec text ""); split; congruence.
Qed.

(** C4 on the code. Whenever the image is decoded and the result of the
    call has [success] false, [detectProduct] leaves [detectionResult] and
    [detectionHistory] as they were, resets [isDetecting], has sent the
    request exactly once, and stores a text in [error]: the default text
    when the error of the result is absent or falsy, and otherwise the
    error as a string (the message of the TypeError when it has no string
    form). The banner, drawn under [error && ...], shows the text unless
    it is empty. And it can be empty: when the service refuses the image
    with a 400 whose body is [{"detail": []}], the error of the result is
    the empty list, its string form is the empty text, this is what is
    stored, and no banner is shown: the failure leaves no trace on the
    page. The same refusal with a text in [detail] shows it. *)
Theorem detectProduct_failure_without_banner :
  (forall P imageData st log imageFile r,
      dataURLtoFile P imageData "capture.jpg" = Normal imageFile ->
      fst (DetectionApi.analyzeImage P imageFile log) = Normal r ->
      success r = false ->
      exists text,
        fst (detectProduct P imageData st log)
        = {| isDetecting := false;
             detectionResult := detectionResult st;
             error := Some text;
             capturedImage := capturedImage st;
             isWebcamActive := isWebcamActive st;
             detectionHistory := detectionHistory st |}
        /\ snd (detectProduct P imageData st log)
           = log ++ [request_of P (AnalyzeImage imageFile)]
        /\ (banner (fst (detectProduct P imageData st log)) = None
            <-> text = "")
        /\ (truthy (read_optional (error_of r)) = false ->
            text = "Gagal melakukan deteksi produk")
        /\ (truthy (read_optional (error_of r)) = true ->
            text = match ToString P (read_optional (error_of r)) with
                   | Normal converted => converted
                   | Throw _ => to_primitive_message P
                   end))
  /\ dataURLtoFile (answering empty_detail_400) sample_jpeg "capture.jpg"
     = Normal sample_capture
  /\ (exists r,
        DetectionApi.analyzeImage (answering empty_detail_400) sample_capture []
        = (Normal r,
           [request_of (answering empty_detail_400) (AnalyzeImage sample_capture)])
        /\ success r = false
        /\ error_of r = Some (VArr []))
  /\ detectProduct (answering empty_detail_400) sample_jpeg busy_dashboard []
     = ({| isDetecting := false;
           detectionResult := sample_verdict true;
           error := Some "";
           capturedImage := Some sample_jpeg;
           isWebcamActive := true;
           detectionHistory := [sample_verdict true; sample_verdict true] |},
        [request_of (answering empty_detail_400) (AnalyzeImage sample_capture)])
  /\ banner
       (fst (detectProduct (answering empty_detail_400) sample_jpeg busy_dashboard []))
     = None
  /\ banner
       (fst (detectProduct (answering bad_request_400) sample_jpeg busy_dashboard []))
     = Some "File must be an image".
Proof.
  split.
  - intros P imageData st log imageFile r Hfile Hcall Hfail.
    rewrite (detectProduct_failure P imageData st log imageFile r Hfile Hcall Hfail).
    eexists. split; [reflexivity|]. split; [reflexivity|].
    split; [now apply banner_none|]. split.
    + intros Hfalsy. now rewrite (js_or_falsy _ _ Hfalsy).
    + intros Htruthy. rewrite (js_or_truthy _ _ Htruthy).
      now apply thrown_message.
  - split; [reflexivity|]. split.
    + eexists. split; [reflexivity|]. split; reflexivity.
    + split; [reflexivity|]. split; reflexivity.
Qed.

(** C1. When the call of the API succeeds, [detectProduct] puts the new
    result at the front of the history and keeps the first nine of the
    previous entries behind it, each one place further and in the same
    order; the list has at most ten entries, and no entry is dropped for
    being equal to another: the length is that of the previous list plus
    one, up to ten. *)
Theorem detectProduct_history (P : Platform) (imageData : string)
    (st : State) (log : list Request) (imageFile : File)
    (r : ApiResponse value) :
  dataURLtoFile P imageData "capture.jpg" = Normal imageFile ->
  fst (DetectionApi.analyzeImage P imageFile log) = Normal r ->
  success r = true ->
  detectionHistory (fst (detectProduct P imageData st log))
  = read_optional (data r) :: take 9 (detectionHistory st)
  /\ length (detectionHistory (fst (detectProduct P imageData st log))) <= 10
  /\ length (detectionHistory (fst (detectProduct P imageData st log)))
     = S (length (detectionHistory st)) `min` 10
  /\ (forall i,
         detectionHistory (fst (detectProduct P imageData st log)) !! S i
         = if decide (i < 9) then detectionHistory st !! i else None)
  /\ detectionResult (fst (detectProduct P imageData st log))
     = read_optional (data r).
Proof.
  intros Hfile Hcall Hsuccess.
  destruct (detectProduct_unfold P imageData st log imageFile Hfile)
    as (r' & Hcall' & ->).
  rewrite Hcall' in Hcall. simpl in Hcall. injection Hcall as ->.
  rewrite Hsuccess. simpl. rewrite slice_0_9.
  repeat split.
  - rewrite length_take. lia.
  - rewrite length_take. lia.
  - intros i. destruct (decide (i < 9)) as [Hi|Hi].
    + now apply lookup_take_lt.
    + apply lookup_take_ge. lia.
Qed.

Lemma detectProduct_history_witness :
  detectionHistory
    (fst (detectProduct (answering verdict_200) sample_jpeg busy_dashboard []))
  = sample_verdict true :: take 9 [sample_verdict true; sample_verdict true]
  /\ length (detectionHistory
               (fst (detectProduct (answering verdict_200) sample_jpeg busy_dashboard [])))
     <= 10
  /\ length (detectionHistory
               (fst (detectProduct (answering verdict_200) sample_jpeg busy_dashboard [])))
     = 3 `min` 10
  /\ (forall i,
         detectionHistory
           (fst (detectProduct (answering verdict_200) sample_jpeg busy_dashboard []))
           !! S i
         = if decide (i < 9)
           then [sample_verdict true; sample_verdict true] !! i else None)
  /\ detectionResult
       (fst (detectProduct (answering verdict_200) sample_jpeg busy_dashboard []))
     = sample_verdict true.
Proof.
  apply (detectProduct_history (answering verdict_200) sample_jpeg busy_dashboard []
           sample_capture (succeeded (sample_verdict true)));
    reflexivity.
Defined.

End Detection.

(* ===================================================================== *)
(** * Properties: [fetchSystemStatus] *)
(* ===================================================================== *)

Section Polling.

Import SystemStatus.

(** When the three calls settle with results that are no success, nothing
    is stored: the previous health, model and count stay, and [error] is
    [null]. *)
Lemma fetchSystemStatus_failures (st : State)
    (health : ApiResponse HealthStatus) (model : ApiResponse ModelInfo)
    (brands : ApiResponse BrandDatabase) :
  success health = false -> success model = false -> success brands = false ->
  fetchSystemStatus (Normal health) (Normal model) (Normal brands) st
  = {| modelInfo := modelInfo st;
       healthStatus := healthStatus st;
       brandsCount := brandsCount st;
       isLoading := false;
       error := None |}.
Proof.
  intros Hh Hm Hb. unfold fetchSystemStatus. rewrite Hh, Hm, Hb. reflexivity.
Qed.

(** [error] is set exactly when one of the promises is rejected, or when
    the brands result is a success without [data]. *)
Lemma fetchSystemStatus_error (st : State)
    (health : Outcome (ApiResponse HealthStatus))
    (model : Outcome (ApiResponse ModelInfo))
    (brands : Outcome (ApiResponse BrandDatabase)) :
  error (fetchSystemStatus health model brands st)
  = match health, model, brands with
    | Normal _, Normal _, Normal b =>
        match data b with
        | None => if success b then Some "Gagal memuat status sistem" else None
        | Some _ => None
        end
    | _, _, _ => Some "Gagal memuat status sistem"
    end.
Proof.
  unfold fetchSystemStatus.
  destruct health as [h|], model as [m|], brands as [b|]; try reflexivity.
  destruct (success h), (success m), (success b), (data b); reflexivity.
Qed.

(** C5 on the code: the service goes down after a poll that found it up.
    The three methods of the API settle with results that are no success
    ("Failed to fetch"); the poll that receives them leaves [error] at
    [null] and the state as it was, and the panel still shows the system
    online, the API active, the model ready and the old count. *)
Theorem fetchSystemStatus_offline_not_reported :
  (fst (DetectionApi.healthCheck offline []) = Normal (failure "Failed to fetch")
   /\ fst (DetectionApi.getModelInfo offline []) = Normal (failure "Failed to fetch")
   /\ fst (DetectionApi.getBrandsDatabase offline [])
      = Normal (failure "Failed to fetch"))
  /\ fetchSystemStatus (Normal (failure "Failed to fetch"))
       (Normal (failure "Failed to fetch")) (Normal (failure "Failed to fetch"))
       healthy_state
     = healthy_state
  /\ error healthy_state = None
  /\ render healthy_state = StatusPanel true true true None 42%float.
Proof.
  repeat split.
Qed.

End Polling.

(* ===================================================================== *)
(** * Properties: the result card *)
(* ===================================================================== *)

Section Card.

Local Arguments String.append !_ _ / : simpl nomatch.

(** Induction on trees, with the children of an element. *)
Lemma vnode_induction (Q : vnode -> Prop) :
  (forall tag attrs children,
      Forall Q children -> Q (Element tag attrs children)) ->
  (forall s, Q (Text s)) ->
  (forall s, Q (Expr s)) ->
  forall t, Q t.
Proof.
  intros Helement Htext Hexpr.
  fix IH 1. intros [tag attrs children|s|s].
  - apply Helement. induction children as [|c children IHc]; constructor.
    + apply IH.
    + exact IHc.
  - apply Htext.
  - apply Hexpr.
Qed.

(** The literal texts of a node of a tree are texts of the tree. *)
Lemma texts_of_node (t n : vnode) (s : string) :
  In n (nodes t) -> In s (texts n) -> In s (texts t).
Proof.
  revert n s. induction t as [tag attrs children IH|s'|s'] using vnode_induction;
    intros n s Hn Hs.
  - destruct Hn as [<-|Hn]; [exact Hs|].
    simpl in Hn |- *. apply in_flat_map in Hn as (c & Hc & Hn).
    apply in_flat_map. exists c. split; [exact Hc|].
    rewrite Forall_forall in IH. eapply IH; eauto.
    now apply list_elem_of_In.
  - destruct Hn as [<-|[]]. exact Hs.
  - destruct Hn as [<-|[]]. exact Hs.
Qed.

(** The one literal text of a feature row. *)
Lemma feature_row_texts (entry : string * bool) :
  texts (feature_row entry) = [if snd entry then "Terdeteksi" else "Tidak Ada"].
Proof. destruct entry as [key [|]]; reflexivity. Qed.

(** The literal texts of the brand block: its heading and three labels. *)
Lemma brand_block_texts (info : BrandInfo) :
  texts (brand_block info) = ["Informasi Brand"; "Nama:"; "Kategori:"; "Risk Level:"].
Proof. reflexivity. Qed.

(** The evaluated expressions of the brand block: the three fields. *)
Lemma brand_block_exprs (info : BrandInfo) :
  exprs (brand_block info)
  = [brand_name info;
     JsString.replace_underscores (category info);
     JsString.toUpperCase (risk_level_string (risk_level info))].
Proof. reflexivity. Qed.

Lemma processing_time_texts (P : Platform) (t : option float) (s : string) :
  In s (flat_map texts (processing_time P t)) -> s = "Waktu Proses: " \/ s = "ms".
Proof.
  destruct t as [ms|]; simpl; [|tauto].
  destruct (JsNumber.truthy ms); simpl; intuition.
Qed.

(** The literal texts of the card, in document order. *)
Lemma card_texts (P : Platform) (result : DetectionResult) (onDownload : bool) :
  texts (DetectionResultCard P result onDownload)
  = ["Confidence: "; "Tingkat Keyakinan"; "Fitur yang Terdeteksi"]
    ++ flat_map texts (map feature_row (feature_entries (detected_features result)))
    ++ match brand_info result with
       | Some info => texts (brand_block info)
       | None => []
       end
    ++ "Waktu Deteksi: "
       :: flat_map texts (processing_time P (processing_time_ms result)).
Proof.
  unfold DetectionResultCard, el.
  cbn [texts flat_map app].
  rewrite !flat_map_app, !app_nil_r.
  destruct (is_israeli_product result), onDownload; cbn [texts flat_map app];
    destruct (brand_info result); cbn [texts flat_map app];
    rewrite ?app_nil_r; reflexivity.
Qed.

Lemma feature_rows_texts (entries : list (string * bool)) (s : string) :
  In s (flat_map texts (map feature_row entries)) ->
  s = "Terdeteksi" \/ s = "Tidak Ada".
Proof.
  induction entries as [|entry entries IH]; simpl; [tauto|].
  rewrite in_app_iff, feature_row_texts. simpl.
  intros [[<-|[]]|H]; [destruct (snd entry); auto|auto].
Qed.

Lemma nodes_self (t : vnode) : In t (nodes t).
Proof. destruct t; simpl; auto. Qed.

Lemma nodes_child (tag : string) (attrs : list (string * string))
    (children : list vnode) (c n : vnode) :
  In c children -> In n (nodes c) -> In n (nodes (Element tag attrs children)).
Proof.
  intros Hc Hn. simpl. right. apply in_flat_map. eauto.
Qed.

(** C6. The card of a result without [brand_info] has none of the literal
    texts of the brand block (its heading and the labels of the name, the
    category and the risk level). A brand block is among the nodes of the
    card exactly when [brand_info] is present, and it is then the block of
    that [brand_info], with its three fields. *)
Theorem card_brand_block (P : Platform) (result : DetectionResult)
    (onDownload : bool) :
  (brand_info result = None ->
   forall label, In label brand_labels ->
                 ~ In label (texts (DetectionResultCard P result onDownload)))
  /\ ((exists info, In (brand_block info)
                     (nodes (DetectionResultCard P result onDownload)))
      <-> exists info, brand_info result = Some info)
  /\ (forall info,
         brand_info result = Some info ->
         In (brand_block info) (nodes (DetectionResultCard P result onDownload))
         /\ exprs (brand_block info)
            = [brand_name info;
               JsString.replace_underscores (category info);
               JsString.toUpperCase (risk_level_string (risk_level info))]).
Proof.
  assert (Habsent : brand_info result = None ->
            forall label, In label brand_labels ->
              ~ In label (texts (DetectionResultCard P result onDownload))).
  { intros Hnone label Hlabel Hin.
    rewrite card_texts, Hnone in Hin.
    assert (Hl : label = "Informasi Brand" \/ label = "Nama:"
                 \/ label = "Kategori:" \/ label = "Risk Level:").
    { unfold brand_labels in Hlabel. simpl in Hlabel. intuition. }
    apply in_app_or in Hin as [Hin|Hin].
    { simpl in Hin. intuition (subst; discriminate). }
    apply in_app_or in Hin as [Hin|Hin].
    { apply feature_rows_texts in Hin. intuition (subst; discriminate). }
    rewrite app_nil_l in Hin. destruct Hin as [<-|Hin].
    { intuition discriminate. }
    apply processing_time_texts in Hin. intuition (subst; discriminate). }
  assert (Hpresent : forall info, brand_info result = Some info ->
            In (brand_block info)
              (nodes (DetectionResultCard P result onDownload))).
  { intros info Hinfo. unfold DetectionResultCard. rewrite Hinfo.
    eapply nodes_child; [right; left; reflexivity|].
    eapply nodes_child; [|apply nodes_self].
    apply in_or_app. right. apply in_or_app. left. left. reflexivity. }
  split; [exact Habsent|]. split.
  - split.
    + intros [info Hin].
      destruct (brand_info result) as [info'|] eqn:Hinfo; [eauto|].
      exfalso. apply (Habsent eq_refl "Informasi Brand"); [now left|].
      eapply texts_of_node; [exact Hin|]. rewrite brand_block_texts. now left.
    + intros [info Hinfo]. exists info. now apply Hpresent.
  - intros info Hinfo. split; [now apply Hpresent|apply brand_block_exprs].
Qed.

Lemma card_brand_block_witness :
  ~ In "Nama:" (texts (DetectionResultCard offline (sample_result false 0.2 None) true))
  /\ In (brand_block sample_brand)
       (nodes (DetectionResultCard offline
                 (sample_result true 0.9 (Some sample_brand)) true))
  /\ exprs (brand_block sample_brand) = ["Acme"; "personal care"; "HIGH"].
Proof.
  split.
  - apply (proj1 (card_brand_block offline (sample_result false 0.2 None) true));
      [reflexivity|].
    right. left. reflexivity.
  - apply (proj2 (proj2 (card_brand_block offline
                           (sample_result true 0.9 (Some sample_brand)) true))).
    reflexivity.
Defined.

End Card.

(* ===================================================================== *)
(** * Properties: the history panel *)
(* ===================================================================== *)

Section History.

(** The count of the results flagged as Israeli products. *)
Lemma israeliProducts_count (history : list DetectionResult) :
  israeliProducts (statistics history)
  = count_occ bool_dec (map is_israeli_product history) true.
Proof.
  unfold statistics. simpl.
  induction history as [|h history IH]; [reflexivity|].
  rewrite filter_cons. cbn [map count_occ].
  destruct (decide (is_israeli_product h = true)) as [Hh|Hh].
  - rewrite Hh. simpl. now rewrite IH.
  - apply not_true_is_false in Hh. rewrite Hh. simpl. exact IH.
Qed.

Lemma israeliProducts_le (history : list DetectionResult) :
  israeliProducts (statistics history) <= totalDetections (statistics history).
Proof.
  unfold statistics. simpl. apply length_filter.
Qed.

(** The number of binary digits of a positive integer. *)
Lemma digits2_pos_bounds (p : positive) :
  (2 ^ (Z.pos (digits2_pos p) - 1) <= Z.pos p < 2 ^ Z.pos (digits2_pos p))%Z.
Proof.
  induction p as [p IH|p IH|]; cbn [digits2_pos].
  - rewrite Pos2Z.inj_succ.
    replace (Z.succ (Z.pos (digits2_pos p)) - 1)%Z
      with (Z.succ (Z.pos (digits2_pos p) - 1)) by lia.
    rewrite !Z.pow_succ_r by lia. lia.
  - rewrite Pos2Z.inj_succ.
    replace (Z.succ (Z.pos (digits2_pos p)) - 1)%Z
      with (Z.succ (Z.pos (digits2_pos p) - 1)) by lia.
    rewrite !Z.pow_succ_r by lia. lia.
  - simpl. lia.
Qed.

(** Shifting to the left adds digits, and multiplies by a power of 2. *)
Lemma digits2_pos_shift (p k : positive) :
  digits2_pos (Pos.iter xO p k) = (digits2_pos p + k)%positive
  /\ (Z.pos (Pos.iter xO p k) = Z.pos p * 2 ^ Z.pos k)%Z.
Proof.
  induction k as [|k [IHd IHv]] using Pos.peano_ind.
  - simpl. split; lia.
  - rewrite Pos.iter_succ. cbn [digits2_pos]. rewrite IHd. split; [lia|].
    rewrite Pos2Z.inj_succ, Z.pow_succ_r by lia.
    rewrite Pos2Z.inj_xO, IHv. lia.
Qed.

(** A mantissa that has its 53 digits is not rounded. *)
Lemma binary_round_aux_canonical (m : positive) (e : Z) :
  fexp prec emax (Z.pos (digits2_pos m) + e) = e -> (e <= emax - prec)%Z ->
  binary_round_aux prec emax false (Z.pos m) e loc_Exact = S754_finite false m e.
Proof.
  intros H He.
  assert (Hshr : shr_fexp prec emax (Z.pos m) e loc_Exact
                 = ({| shr_m := Z.pos m; shr_r := false; shr_s := false |}, e)).
  { unfold shr_fexp. cbn [Zdigits2]. rewrite H, Z.sub_diag. reflexivity. }
  unfold binary_round_aux. rewrite Hshr.
  cbn [shr_m loc_of_shr_record round_nearest_even shr_r shr_s].
  rewrite Hshr. cbn [shr_m].
  apply Z.leb_le in He. now rewrite He.
Qed.

(** An integer below 2^53 is a binary64 number. *)
Lemma binary_round_small (p : positive) :
  (Z.pos p < 2 ^ 53)%Z ->
  exists m e,
    binary_round prec emax false p 0 = S754_finite false m e
    /\ (e <= 0)%Z /\ (Z.pos m = Z.pos p * 2 ^ (- e))%Z.
Proof.
  intros Hp.
  pose proof (digits2_pos_bounds p) as [Hlo _].
  assert (Hd : (Z.pos (digits2_pos p) <= 53)%Z).
  { destruct (Z.le_gt_cases (Z.pos (digits2_pos p)) 53) as [|Hgt]; [assumption|].
    assert (2 ^ 53 <= 2 ^ (Z.pos (digits2_pos p) - 1))%Z
      by (apply Z.pow_le_mono_r; lia).
    lia. }
  unfold binary_round, shl_align.
  assert (Hfexp : fexp prec emax (Z.pos (digits2_pos p) + 0)
                  = (Z.pos (digits2_pos p) - 53)%Z).
  { unfold fexp, emin, prec, emax. lia. }
  rewrite Hfexp.
  destruct (Z.pos (digits2_pos p) - 53 - 0)%Z as [|d|d] eqn:Hshift; [| lia |].
  - exists p, 0%Z. split; [|split; [lia|simpl; lia]].
    apply binary_round_aux_canonical; [|unfold emax, prec; lia].
    rewrite Hfexp. lia.
  - destruct (digits2_pos_shift p d) as [Hdigits Hvalue].
    exists (Pos.iter xO p d), (Z.pos (digits2_pos p) - 53)%Z.
    split; [|split; [lia|]].
    + apply binary_round_aux_canonical; [|unfold emax, prec; lia].
      rewrite Hdigits. unfold fexp, emin, prec, emax. lia.
    + rewrite Hvalue. do 2 f_equal. lia.
Qed.

(** The number that a length below 2^53 is: the length itself, [m * 2^e]
    for a mantissa [m] and an exponent [e]; it is not zero. *)
Lemma of_nat_exact (n : nat) :
  (0 < Z.of_nat n < 2 ^ 53)%Z ->
  PrimFloat.is_zero (JsNumber.of_nat n) = false
  /\ exists m e,
       Prim2SF (JsNumber.of_nat n) = S754_finite false m e
       /\ (e <= 0)%Z /\ (Z.pos m = Z.of_nat n * 2 ^ (- e))%Z.
Proof.
  intros [Hpos Hlt].
  assert (Hexact : exists m e,
             Prim2SF (JsNumber.of_nat n) = S754_finite false m e
             /\ (e <= 0)%Z /\ (Z.pos m = Z.of_nat n * 2 ^ (- e))%Z).
  { unfold JsNumber.of_nat.
    rewrite of_uint63_spec, Uint63.of_Z_spec.
    rewrite Z.mod_small
      by (split; [lia|]; apply Z.lt_trans with (2 ^ 53)%Z; [assumption|reflexivity]).
    destruct (Z.of_nat n) as [|p|p] eqn:Hn; [lia| |lia].
    cbn [binary_normalize]. now apply binary_round_small. }
  split; [|exact Hexact].
  destruct Hexact as (m & e & Hsf & _).
  unfold PrimFloat.is_zero. rewrite FloatAxioms.eqb_spec, Hsf. reflexivity.
Qed.

(** The expressions that the header evaluates. *)
Lemma statistics_header_exprs (P : Platform) (s : Statistics) :
  exprs (statistics_header P s)
  = [pretty (totalDetections s); pretty (totalDetections s);
     pretty (israeliProducts s); pretty (safeProducts s);
     toFixed P (averageConfidence s * 100)%float 1].
Proof. reflexivity. Qed.

(** C9. For an empty history the component returns the empty-state panel,
    in which nothing is computed; the statistics, and their division, come
    after this return. For a history that is not empty, the panel shows the
    number of entries, the number of entries with [is_israeli_product],
    the rest, and the average, which is the sum of the confidences, added
    from the first entry on to 0, divided by the length. The length is not
    0, and the number it is divided by is the length itself (a mantissa
    and an exponent of binary64 with [m * 2^e = length]), not zero: this
    for every length below 2^53, and the length of an array is below
    2^32. *)
Theorem DetectionHistory_statistics (P : Platform)
    (history : list DetectionResult) :
  history <> [] ->
  (DetectionHistory P [] = empty_state /\ exprs empty_state = [])
  /\ DetectionHistory P history
     = el "div" "bg-white rounded-2xl shadow-lg border border-gray-100 overflow-hidden"
         [ statistics_header P (statistics history);
           el "div" "max-h-96 overflow-y-auto"
             (imap (history_item P (length history)) history) ]
  /\ averageConfidence (statistics history)
     = (fold_left (fun sum h => sum + confidence h) history 0
        / PrimFloat.of_uint63 (Uint63.of_Z (Z.of_nat (length history))))%float
  /\ exprs (statistics_header P (statistics history))
     = [pretty (length history); pretty (length history);
        pretty (count_occ bool_dec (map is_israeli_product history) true);
        pretty (length history
                - count_occ bool_dec (map is_israeli_product history) true);
        toFixed P
          (fold_left (fun sum h => sum + confidence h) history 0
           / PrimFloat.of_uint63 (Uint63.of_Z (Z.of_nat (length history)))
           * 100)%float 1]
  /\ count_occ bool_dec (map is_israeli_product history) true
     + (length history - count_occ bool_dec (map is_israeli_product history) true)
     = length history
  /\ length history <> 0
  /\ ((Z.of_nat (length history) < 2 ^ 53)%Z ->
      PrimFloat.is_zero
        (PrimFloat.of_uint63 (Uint63.of_Z (Z.of_nat (length history)))) = false
      /\ exists m e,
           Prim2SF (PrimFloat.of_uint63 (Uint63.of_Z (Z.of_nat (length history))))
           = S754_finite false m e
           /\ (e <= 0)%Z
           /\ (Z.pos m = Z.of_nat (length history) * 2 ^ (- e))%Z).
Proof.
  intros Hne.
  assert (Hlen : length history <> 0) by (destruct history; simpl; congruence).
  split; [split; reflexivity|]. split.
  { unfold DetectionHistory.
    destruct (Nat.eqb_spec (length history) 0); [contradiction|reflexivity]. }
  split; [reflexivity|].
  rewrite statistics_header_exprs.
  pose proof (israeliProducts_count history) as Hcount.
  pose proof (israeliProducts_le history) as Hle.
  rewrite <- Hcount. split; [reflexivity|]. split.
  { unfold statistics in *. simpl in *. lia. }
  split; [exact Hlen|].
  intros Hsmall. apply (of_nat_exact (length history)). lia.
Qed.

Lemma DetectionHistory_statistics_witness :
  (DetectionHistory offline [] = empty_state /\ exprs empty_state = [])
  /\ DetectionHistory offline sample_history
     = el "div" "bg-white rounded-2xl shadow-lg border border-gray-100 overflow-hidden"
         [ statistics_header offline (statistics sample_history);
           el "div" "max-h-96 overflow-y-auto"
             (imap (history_item offline 2) sample_history) ]
  /\ averageConfidence (statistics sample_history) = ((0 + 0.9 + 0.25) / 2)%float
  /\ exprs (statistics_header offline (statistics sample_history))
     = ["2"; "2"; "1"; "1";
        toFixed offline ((0 + 0.9 + 0.25) / 2 * 100)%float 1]
  /\ 1 + (2 - 1) = 2
  /\ 2 <> 0
  /\ PrimFloat.is_zero 2%float = false
  /\ exists m e,
       Prim2SF 2%float = S754_finite false m e
       /\ (e <= 0)%Z
       /\ (Z.pos m = 2 * 2 ^ (- e))%Z.
Proof.
  destruct (DetectionHistory_statistics offline sample_history)
    as (Hempty & Hpanel & Haverage & Hexprs & Hsum & Hlen & Hnumber).
  - discriminate.
  - split; [exact Hempty|]. split; [exact Hpanel|]. split; [exact Haverage|].
    split; [exact Hexprs|]. split; [exact Hsum|]. split; [exact Hlen|].
    apply Hnumber. reflexivity.
Defined.

End History.

(* ===================================================================== *)
(** * More on [dataURLtoFile] *)
(* ===================================================================== *)

Section DataUrlShape.

Import JsString.

Local Arguments String.append !_ _ / : simpl nomatch.

(** A text is cut at its first comma, if it has one. *)
Lemma split_first (s : string) :
  (lacks "," s = true /\ split "," s = [s])
  \/ exists a rest,
       s = a +:+ String "," rest /\ lacks "," a = true
       /\ split "," s = a :: split "," rest.
Proof.
  induction s as [|c s IH]; simpl.
  - left. split; reflexivity.
  - destruct (Ascii.eqb_spec c ",") as [->|Hc].
    + right. exists "", s. repeat split.
    + apply Ascii.eqb_neq in Hc.
      destruct IH as [[Hl Hs]|(a & rest & -> & Ha & Hs)].
      * left. rewrite Hl, Hs. split; reflexivity.
      * right. exists (String c a), rest. simpl. rewrite Hc, Ha, Hs.
        repeat split.
Qed.

Lemma codes_bytes (s : string) : Forall (fun b => (b < 256)%N) (codes s).
Proof.
  induction s as [|c s IH]; simpl; constructor; [apply N_ascii_bounded|exact IH].
Qed.

(** Without a comma, [arr[1]] is [undefined]. *)
Lemma dataURLtoFile_without_comma_throws (P : Platform)
    (dataurl filename : string) :
  lacks "," dataurl = true ->
  dataURLtoFile P dataurl filename
  = Throw (match match_colon_semicolon dataurl with
           | None => ErrorObject "TypeError" (null_read_message P "1")
           | Some _ => ErrorObject "InvalidCharacterError" (atob_message P)
           end).
Proof.
  intros Hl. unfold dataURLtoFile. rewrite (split_lacks _ _ Hl). cbn [nth].
  destruct (match_colon_semicolon dataurl); reflexivity.
Qed.

(** X2. A text without a comma never gives a file: when its header has no
    [:<mime>;] part the TypeError is thrown, and otherwise [atob] is given
    [undefined] and throws. *)
Theorem dataURLtoFile_without_comma (P : Platform) (dataurl filename : string) :
  lacks "," dataurl = true ->
  dataURLtoFile P dataurl filename
  = Throw (match match_colon_semicolon dataurl with
           | None => ErrorObject "TypeError" (null_read_message P "1")
           | Some _ => ErrorObject "InvalidCharacterError" (atob_message P)
           end).
Proof.
  intros Hl. unfold dataURLtoFile. rewrite (split_lacks _ _ Hl). cbn [nth].
  destruct (match_colon_semicolon dataurl); reflexivity.
Qed.

Lemma dataURLtoFile_without_comma_witness :
  dataURLtoFile offline "data:image/png;base64" "capture.jpg"
  = Throw (ErrorObject "InvalidCharacterError" (atob_message offline)).
Proof.
  apply (dataURLtoFile_without_comma offline "data:image/png;base64" "capture.jpg").
  reflexivity.
Defined.

(** X3. What follows a second comma is not read: the file, or the
    exception, is that of the text cut before it. *)
Theorem dataURLtoFile_second_comma (P : Platform)
    (header payload rest filename : string) :
  lacks "," header = true -> lacks "," payload = true ->
  dataURLtoFile P (header +:+ "," +:+ payload +:+ "," +:+ rest) filename
  = dataURLtoFile P (header +:+ "," +:+ payload) filename.
Proof.
  intros Hh Hp. unfold dataURLtoFile.
  change (header +:+ "," +:+ payload +:+ "," +:+ rest)
    with (header +:+ String "," (payload +:+ String "," rest)).
  change (header +:+ "," +:+ payload) with (header +:+ String "," payload).
  rewrite !split_app by assumption. rewrite (split_lacks _ _ Hp).
  reflexivity.
Qed.

Lemma dataURLtoFile_second_comma_witness :
  dataURLtoFile offline ("data:image/jpeg;base64" +:+ "," +:+ "/9j/" +:+ "," +:+ "4AAQ")
    "capture.jpg"
  = dataURLtoFile offline ("data:image/jpeg;base64" +:+ "," +:+ "/9j/") "capture.jpg".
Proof.
  apply (dataURLtoFile_second_comma offline "data:image/jpeg;base64" "/9j/" "4AAQ"
           "capture.jpg"); reflexivity.
Defined.

(** Lower case is reached in one step, and keeps a text printable. *)
Lemma lower_char_fixed (c : ascii) :
  lower_char (lower_char c) = lower_char c
  /\ (is_printable c = true -> is_printable (lower_char c) = true).
Proof.
  destruct c as [[] [] [] [] [] [] [] []]; split; reflexivity || discriminate.
Qed.

(** The type that the File constructor stores is printable ASCII without
    upper-case letters. *)
Lemma new_File_type (fileBits : list N) (fileName t : string) :
  all_printable (type (new_File fileBits fileName t)) = true
  /\ ascii_lowercase (type (new_File fileBits fileName t))
     = type (new_File fileBits fileName t).
Proof.
  unfold new_File. cbn [type].
  destruct (all_printable t) eqn:Hp; [|split; reflexivity].
  induction t as [|c t IH]; [split; reflexivity|].
  simpl in Hp. apply andb_prop in Hp as [Hc Ht].
  destruct (IH Ht) as [IHp IHl], (lower_char_fixed c) as [Hfix Hkeep].
  simpl. rewrite (Hkeep Hc), IHp, Hfix, IHl. split; reflexivity.
Qed.

(** X4. Whenever [dataURLtoFile] returns a file, the text has a header
    with a part [:<mime>;] ([<mime>] without [;] and without line break),
    then a comma and a payload that [atob] decodes. The file has the name
    given; its content is the decoded bytes, each below 256; its type is
    [<mime>] in ASCII lower case, or empty when [<mime>] has a character
    outside U+0020..U+007E: in every case a printable text without
    upper-case letters. *)
Theorem dataURLtoFile_file (P : Platform) (dataurl filename : string) (f : File) :
  dataURLtoFile P dataurl filename = Normal f ->
  name f = filename
  /\ all_printable (type f) = true
  /\ ascii_lowercase (type f) = type f
  /\ Forall (fun b => (b < 256)%N) (bits f)
  /\ exists pre mime post payload tail bstr,
       dataurl = (pre +:+ String ":" (mime +:+ String ";" post))
                 +:+ String "," (payload +:+ tail)
       /\ lacks ";" mime = true
       /\ no_line_terminator mime = true
       /\ type f = (if all_printable mime then ascii_lowercase mime else "")
       /\ lacks "," payload = true
       /\ (tail = "" \/ exists rest, tail = String "," rest)
       /\ atob P payload = Normal bstr
       /\ bits f = codes bstr.
Proof.
  intros Hfile.
  destruct (split_first dataurl) as [[Hl _]|(header & tail0 & -> & Hheader & Hsplit)].
  { rewrite dataURLtoFile_without_comma_throws in Hfile by assumption.
    discriminate. }
  unfold dataURLtoFile in Hfile. rewrite Hsplit in Hfile. cbn [nth] in Hfile.
  destruct (match_colon_semicolon header) as [mime|] eqn:Hmatch; [|discriminate].
  destruct (match_sound _ _ Hmatch) as (pre & post & -> & Hlt & Hsemi).
  assert (Hpayload : exists payload tail,
             tail0 = payload +:+ tail /\ lacks "," payload = true
             /\ (tail = "" \/ exists rest, tail = String "," rest)
             /\ (split "," tail0) !! 0%nat = Some payload).
  { destruct (split_first tail0) as [[Hl Hs]|(a & rest & -> & Ha & Hs)].
    - exists tail0, "". rewrite Hs. repeat split; auto.
      clear. induction tail0; simpl; congruence.
    - exists a, (String "," rest). rewrite Hs. repeat split; eauto. }
  destruct Hpayload as (payload & tail & -> & Hp & Htail & Hfirst).
  change ((?a :: split "," (payload +:+ tail)) !! 1%nat)
    with (split "," (payload +:+ tail) !! 0%nat) in Hfile.
  rewrite Hfirst in Hfile. cbn [from_option id] in Hfile.
  destruct (atob P payload) as [bstr|e] eqn:Hatob; [|discriminate].
  injection Hfile as <-.
  rewrite fill_u8arr_codes.
  destruct (new_File_type (codes bstr) filename mime) as [Hprintable Hlower].
  split; [reflexivity|]. split; [exact Hprintable|]. split; [exact Hlower|].
  split; [apply codes_bytes|].
  exists pre, mime, post, payload, tail, bstr. repeat split; assumption.
Qed.

Lemma dataURLtoFile_file_witness :
  name sample_capture = "capture.jpg"
  /\ all_printable (type sample_capture) = true
  /\ ascii_lowercase (type sample_capture) = type sample_capture
  /\ Forall (fun b => (b < 256)%N) (bits sample_capture)
  /\ exists pre mime post payload tail bstr,
       upper_case_jpeg = (pre +:+ String ":" (mime +:+ String ";" post))
                         +:+ String "," (payload +:+ tail)
       /\ lacks ";" mime = true
       /\ no_line_terminator mime = true
       /\ type sample_capture
          = (if all_printable mime then ascii_lowercase mime else "")
       /\ lacks "," payload = true
       /\ (tail = "" \/ exists rest, tail = String "," rest)
       /\ atob offline payload = Normal bstr
       /\ bits sample_capture = codes bstr.
Proof.
  apply (dataURLtoFile_file offline upper_case_jpeg "capture.jpg" sample_capture).
  reflexivity.
Defined.

End DataUrlShape.

(* ===================================================================== *)
(** * More on the dashboard: what the banner says, and sequences of events *)
(* ===================================================================== *)

Section Dashboard.

Import Page Handlers.

(** [or_default] never gives the empty text. *)
Lemma or_default_nonempty (text : string) : or_default text <> "".
Proof.
  unfold or_default. destruct (String.eqb_spec text ""); [discriminate|assumption].
Qed.

(** X5. End to end, for an image that decodes: the outcome of the one
    request decides what [detectProduct] leaves. A 2xx answer with a JSON
    body is stored as the result and put in front of the history, and the
    banner is cleared. In every other case the result and the history stay
    and the banner gets its text: the message of the network error, the
    message of the parser for a body that is not JSON, and for a refusal
    its truthy [detail] as a string (the message of the TypeError when
    [detail] has no string form: an object with a key [toString], or an
    array that holds one) or else [HTTP <status>: <statusText>]; an empty
    message of an exception is replaced by the default text. The banner
    text is then never empty, unless the refusal carries a truthy [detail]
    that is no string. *)
Theorem detectProduct_end_to_end (P : Platform) (imageData : string)
    (st : State) (log : list Request) (imageFile : File) :
  dataURLtoFile P imageData "capture.jpg" = Normal imageFile ->
  error (fst (detectProduct P imageData st log))
  = banner_text P (network P log (request_of P (AnalyzeImage imageFile)))
  /\ match banner_text P (network P log (request_of P (AnalyzeImage imageFile))) with
     | None =>
         exists response body,
           network P log (request_of P (AnalyzeImage imageFile)) = Normal response
           /\ json response = Normal body
           /\ detectionResult (fst (detectProduct P imageData st log)) = body
           /\ detectionHistory (fst (detectProduct P imageData st log))
              = body :: take 9 (detectionHistory st)
     | Some text =>
         detectionResult (fst (detectProduct P imageData st log))
         = detectionResult st
         /\ detectionHistory (fst (detectProduct P imageData st log))
            = detectionHistory st
         /\ (text = "" ->
             exists response body detail,
               network P log (request_of P (AnalyzeImage imageFile)) = Normal response
               /\ ok response = false
               /\ json response = Normal body
               /\ read_property P body "detail" = Normal detail
               /\ truthy detail = true /\ is_text detail = false)
     end.
Proof.
  intros Hfile.
  destruct (detectProduct_unfold P imageData st log imageFile Hfile)
    as (r & Hcall & ->).
  change (DetectionApi.analyzeImage P imageFile log)
    with (call P (AnalyzeImage imageFile) log) in Hcall.
  rewrite call_unfold in Hcall.
  destruct (network P log (request_of P (AnalyzeImage imageFile)))
    as [response|e] eqn:Hnet.
  - destruct (ok response) eqn:Hok.
    + rewrite handleResponse_ok in Hcall by assumption.
      injection Hcall as <-. unfold banner_text. rewrite Hok.
      destruct (json response) as [body|e] eqn:Hjson; cbn -[thrown_by_new_Error].
      * split; [reflexivity|]. exists response, body.
        repeat split; assumption.
      * rewrite thrown_or_default. split; [reflexivity|].
        repeat split. intros H. now apply or_default_nonempty in H.
    + rewrite handleResponse_not_ok in Hcall by assumption.
      injection Hcall as <-. unfold banner_text. rewrite Hok.
      destruct (json response) as [body|e] eqn:Hjson; cbn -[thrown_by_new_Error].
      * destruct (read_property P body "detail") as [detail|e] eqn:Hdetail;
          cbn -[thrown_by_new_Error].
        -- destruct (truthy detail) eqn:Ht.
           ++ rewrite !(js_or_truthy detail) by assumption.
              rewrite (thrown_message P detail Ht).
              split; [reflexivity|]. repeat split.
              intros Hempty. exists response, body, detail.
              repeat split; try assumption.
              destruct detail; try reflexivity.
              simpl in Hempty, Ht. subst s. discriminate.
           ++ rewrite (js_or_falsy detail) by assumption.
              rewrite thrown_or_default. unfold or_default.
              destruct (String.eqb_spec (DetectionApi.http_status_message response) "")
                as [Heq|_]; [now apply http_status_message_nonempty in Heq|].
              split; [reflexivity|]. repeat split.
              intros Heq. now apply http_status_message_nonempty in Heq.
        -- rewrite thrown_or_default. split; [reflexivity|].
           repeat split. intros H. now apply or_default_nonempty in H.
      * rewrite thrown_or_default. split; [reflexivity|].
        repeat split. intros H. now apply or_default_nonempty in H.
  - injection Hcall as <-. cbn -[thrown_by_new_Error]. rewrite thrown_or_default.
    split; [reflexivity|]. repeat split.
    intros H. now apply or_default_nonempty in H.
Qed.

Lemma detectProduct_end_to_end_witness :
  (error (fst (detectProduct (answering unavailable_503) sample_jpeg busy_dashboard []))
   = Some "HTTP 503: Service Unavailable"
   /\ detectionResult
        (fst (detectProduct (answering unavailable_503) sample_jpeg busy_dashboard []))
      = sample_verdict true
   /\ detectionHistory
        (fst (detectProduct (answering unavailable_503) sample_jpeg busy_dashboard []))
      = [sample_verdict true; sample_verdict true])
  /\ error (fst (detectProduct (answering own_toString_400) sample_jpeg
                   busy_dashboard []))
     = Some "Cannot convert object to primitive value".
Proof.
  split.
  - destruct (detectProduct_end_to_end (answering unavailable_503) sample_jpeg
                busy_dashboard [] sample_capture eq_refl)
      as (Herror & Hresult & Hhistory & _).
    split; [exact Herror|]. split; [exact Hresult|exact Hhistory].
  - exact (proj1 (detectProduct_end_to_end (answering own_toString_400) sample_jpeg
                    busy_dashboard [] sample_capture eq_refl)).
Defined.

(** What one detection does to the history. *)
Lemma detectProduct_history_step (P : Platform) (imageData : string)
    (st : State) (log : list Request) :
  detectionHistory (fst (detectProduct P imageData st log))
  = match detected P imageData log with
    | Some d => d :: take 9 (detectionHistory st)
    | None => detectionHistory st
    end.
Proof.
  unfold detected.
  destruct (dataURLtoFile P imageData "capture.jpg") as [imageFile|e] eqn:Hfile.
  - destruct (detectProduct_unfold P imageData st log imageFile Hfile)
      as (r & Hcall & ->).
    rewrite Hcall. simpl. destruct (success r); reflexivity.
  - now rewrite (detectProduct_bad_image P imageData st log e Hfile).
Qed.

(** What one detection sends: nothing, or one POST to [/analyze]; and it
    ends with [isDetecting] reset. *)
Lemma detectProduct_sends (P : Platform) (imageData : string)
    (st : State) (log : list Request) :
  isDetecting (fst (detectProduct P imageData st log)) = false
  /\ exists sent,
       snd (detectProduct P imageData st log) = log ++ sent
       /\ length sent <= 1
       /\ Forall (fun r => url r = API_BASE_URL P +:+ "/analyze"
                          /\ method r = "POST") sent.
Proof.
  destruct (dataURLtoFile P imageData "capture.jpg") as [imageFile|e] eqn:Hfile.
  - destruct (detectProduct_unfold P imageData st log imageFile Hfile)
      as (r & _ & ->).
    split; [reflexivity|].
    exists [request_of P (AnalyzeImage imageFile)]. simpl.
    repeat split; [lia|]. repeat constructor.
  - rewrite (detectProduct_bad_image P imageData st log e Hfile).
    split; [reflexivity|]. exists []. simpl. rewrite app_nil_r.
    repeat split; [lia|constructor].
Qed.

(** What one event does to the history. *)
Lemma handle_history (P : Platform) (readAsDataURL : File -> option string)
    (ev : Event) (st : State) (log : list Request) :
  detectionHistory (fst (handle P readAsDataURL ev st log))
  = match submitted readAsDataURL ev with
    | Some imageSrc =>
        match detected P imageSrc log with
        | Some d => d :: take 9 (detectionHistory st)
        | None => detectionHistory st
        end
    | None => detectionHistory st
    end.
Proof.
  destruct ev as [[[imageSrc|]|]|[f|]| |result]; simpl; try reflexivity.
  - destruct (String.eqb imageSrc ""); simpl; [reflexivity|].
    now rewrite detectProduct_history_step.
  - destruct (readAsDataURL f) as [imageSrc|]; [|reflexivity].
    now rewrite detectProduct_history_step.
  - unfold toggleWebcam. destruct (isWebcamActive st); reflexivity.
Qed.



(** X7. Whatever the events, the history never grows beyond ten entries
    (or its length at the start, if that was more), every event sends at
    most one request, each a POST to [/analyze], and the requests sent
    before are kept as they are. *)
Theorem run_invariants (P : Platform) (readAsDataURL : File -> option string)
    (events : list Event) (st : State) (log : list Request) :
  length (detectionHistory (fst (run P readAsDataURL events st log)))
  <= Nat.max 10 (length (detectionHistory st))
  /\ exists sent,
       snd (run P readAsDataURL events st log) = log ++ sent
       /\ length sent <= length events
       /\ Forall (fun r => url r = API_BASE_URL P +:+ "/analyze"
                          /\ method r = "POST") sent.
Proof.
  revert st log. induction events as [|ev events IH]; intros st log.
  - simpl. split; [lia|]. exists []. rewrite app_nil_r. simpl.
    repeat split; [lia|constructor].
  - cbn [run].
    pose proof (handle_history P readAsDataURL ev st log) as Hhistory.
    assert (Hsent : exists sent,
               snd (handle P readAsDataURL ev st log) = log ++ sent
               /\ length sent <= 1
               /\ Forall (fun r => url r = API_BASE_URL P +:+ "/analyze"
                                  /\ method r = "POST") sent).
    { assert (Hnone : exists sent : list Request,
                 log = log ++ sent /\ length sent <= 1
                 /\ Forall (fun r => url r = API_BASE_URL P +:+ "/analyze"
                                    /\ method r = "POST") sent).
      { exists []. rewrite app_nil_r. repeat split; [simpl; lia|constructor]. }
      destruct ev as [[[imageSrc|]|]|[f|]| |result]; simpl; try exact Hnone.
      - destruct (String.eqb imageSrc ""); simpl; [exact Hnone|].
        apply detectProduct_sends.
      - destruct (readAsDataURL f) as [imageSrc|]; [|exact Hnone].
        apply detectProduct_sends. }
    destruct (handle P readAsDataURL ev st log) as [st' log'].
    simpl in Hhistory, Hsent.
    destruct Hsent as (sent & -> & Hlen & Hall).
    destruct (IH st' (log ++ sent)) as (Hh & sent' & -> & Hlen' & Hall').
    split.
    + assert (length (detectionHistory st')
              <= Nat.max 10 (length (detectionHistory st))).
      { rewrite Hhistory.
        destruct (submitted readAsDataURL ev) as [imageSrc|]; [|lia].
        destruct (detected P imageSrc log); [|lia].
        simpl. rewrite length_take. lia. }
      lia.
    + exists (sent ++ sent'). rewrite app_assoc. split; [reflexivity|].
      split; [rewrite length_app; simpl; lia|].
      apply Forall_app. split; assumption.
Qed.

End Dashboard.

(* ===================================================================== *)
(** * More on the components *)
(* ===================================================================== *)

Section Components.

Local Arguments String.append !_ _ / : simpl nomatch.

(** X8. The bar of the card has the colour of the confidence text: the
    three ladders of thresholds (text class, background class, and the one
    written in the card for the bar) give the same bucket for every number,
    and the card carries the text class and the bar class of that one
    bucket. *)
Theorem bar_color_agrees (P : Platform) (result : DetectionResult)
    (onDownload : bool) :
  bucket_of_bar (bar_color (confidence result))
  = bucket_of_color (getConfidenceColor (confidence result))
  /\ bucket_of_bar (bar_color (confidence result))
     = bucket_of_bg (getConfidenceBgColor (confidence result))
  /\ In (el "span" ("text-sm font-semibold " +:+ getConfidenceColor (confidence result))
           [Expr (formatConfidence P (confidence result))])
       (nodes (DetectionResultCard P result onDownload))
  /\ In (Element "div"
           [("className",
             "h-2 rounded-full transition-all duration-500 "
             +:+ bar_color (confidence result));
            ("style",
             "width: " +:+ number_to_string P (confidence result * 100)%float
             +:+ "%")]
           [])
       (nodes (DetectionResultCard P result onDownload)).
Proof.
  destruct (color_bucket (confidence result)) as [Hcolor Hbg].
  rewrite Hcolor, Hbg.
  assert (Hbar : bucket_of_bar (bar_color (confidence result))
                 = Some (bucket_of (confidence result))).
  { unfold bar_color, bucket_of.
    destruct (JsNumber.ge (confidence result) 0.8); [reflexivity|].
    destruct (JsNumber.ge (confidence result) 0.6); [reflexivity|].
    destruct (JsNumber.ge (confidence result) 0.4); reflexivity. }
  split; [exact Hbar|]. split; [exact Hbar|].
  unfold DetectionResultCard. split.
  - eapply nodes_child; [right; left; reflexivity|].
    eapply nodes_child; [apply in_or_app; left; left; reflexivity|].
    eapply nodes_child; [left; reflexivity|].
    eapply nodes_child; [right; left; reflexivity|apply nodes_self].
  - eapply nodes_child; [right; left; reflexivity|].
    eapply nodes_child; [apply in_or_app; left; left; reflexivity|].
    eapply nodes_child; [right; left; reflexivity|].
    eapply nodes_child; [left; reflexivity|apply nodes_self].
Qed.

(** X9. The processing time of the card. The label [Waktu Proses] is
    shown exactly when [processing_time_ms] is present and truthy. When it
    is present but is [0] (or NaN), the condition [x && ...] leaves the
    number itself in the tree: it is shown bare, beside the time of
    detection. *)
Theorem card_processing_time (P : Platform) (result : DetectionResult)
    (onDownload : bool) :
  (In "Waktu Proses: " (texts (DetectionResultCard P result onDownload))
   <-> exists ms, processing_time_ms result = Some ms
                  /\ JsNumber.truthy ms = true)
  /\ (forall ms,
         processing_time_ms result = Some ms -> JsNumber.truthy ms = false ->
         In (Expr (number_to_string P ms))
           (nodes (DetectionResultCard P result onDownload))).
Proof.
  split.
  - rewrite card_texts. split.
    + intros Hin.
      apply in_app_or in Hin as [Hin|Hin].
      { simpl in Hin. intuition discriminate. }
      apply in_app_or in Hin as [Hin|Hin].
      { apply feature_rows_texts in Hin. intuition discriminate. }
      apply in_app_or in Hin as [Hin|Hin].
      { destruct (brand_info result); [|destruct Hin].
        rewrite brand_block_texts in Hin. simpl in Hin. intuition discriminate. }
      destruct Hin as [Hin|Hin]; [discriminate|].
      destruct (processing_time_ms result) as [ms|]; [|destruct Hin].
      exists ms. split; [reflexivity|].
      simpl in Hin. destruct (JsNumber.truthy ms); [reflexivity|destruct Hin].
    + intros (ms & -> & Ht).
      apply in_or_app. right. apply in_or_app. right. apply in_or_app. right.
      right. simpl. rewrite Ht. simpl. now left.
  - intros ms Hms Ht. unfold DetectionResultCard. rewrite Hms.
    eapply nodes_child; [right; left; reflexivity|].
    eapply nodes_child; [apply in_or_app; right; apply in_or_app; right;
                         left; reflexivity|].
    eapply nodes_child; [left; reflexivity|].
    eapply nodes_child; [|apply nodes_self].
    right. simpl. rewrite Ht. now left.
Qed.

Lemma card_processing_time_witness :
  In "Waktu Proses: "
    (texts (DetectionResultCard offline (sample_result true 0.9 None) false))
  /\ In (Expr (number_to_string offline 0%float))
       (nodes (DetectionResultCard offline instant_result false)).
Proof.
  split.
  - apply (proj1 (card_processing_time offline (sample_result true 0.9 None) false)).
    exists 12.5%float. split; reflexivity.
  - apply (proj2 (card_processing_time offline instant_result false) 0%float);
      reflexivity.
Defined.

(** The literal texts of a line of the history. *)
Lemma history_item_texts (P : Platform) (total index : nat)
    (result : DetectionResult) :
  texts (history_item P total index result)
  = ["#"; "Confidence: "; "%"]
    ++ match brand_info result with Some _ => ["Brand: "] | None => [] end
    ++ (if forallb (fun entry => negb (snd entry))
             (feature_entries (detected_features result))
        then ["No features detected"] else []).
Proof.
  unfold history_item, el. cbn [texts flat_map app].
  rewrite !flat_map_app, !app_nil_r.
  assert (Hdots : forall entries,
             flat_map texts (flat_map feature_dot entries) = []).
  { induction entries as [|[key [|]] entries IH]; simpl; auto. }
  rewrite Hdots.
  destruct (is_israeli_product result), (brand_info result);
    cbn [texts flat_map app];
    destruct (forallb _ _); reflexivity.
Qed.

(** The feature dots of a line, read in its tree: the titles of the
    features that are set, as [feature_entries] lists them. *)
Lemma history_item_dot_titles (P : Platform) (total index : nat)
    (result : DetectionResult) :
  dot_titles (history_item P total index result)
  = (if barcode_729 (detected_features result) then ["Barcode 729"] else [])
    ++ (if made_in_israel_text (detected_features result)
        then ["Made In Israel Text"] else [])
    ++ (if hebrew_text (detected_features result) then ["Hebrew Text"] else [])
    ++ (if israeli_brand (detected_features result) then ["Israeli Brand"] else [])
    ++ (if kosher_certification (detected_features result)
        then ["Kosher Certification"] else []).
Proof.
  unfold dot_titles, history_item, el, feature_entries.
  destruct (detected_features result) as [[] [] [] [] []];
    destruct (is_israeli_product result), (brand_info result);
    reflexivity.
Qed.

(** X10. A line of the history shows its optional parts exactly when
    they are there: the brand ([Brand: ] and the name) exactly when
    [brand_info] is present; in its tree, one red dot for each detected
    feature and no other, each titled after its feature; and the words
    [No features detected] exactly when the line has no dot, which is when
    no feature is set. *)
Theorem history_item_optional_parts (P : Platform) (total index : nat)
    (result : DetectionResult) :
  (In "Brand: " (texts (history_item P total index result))
   <-> exists info, brand_info result = Some info)
  /\ length (dot_titles (history_item P total index result))
     = count_occ bool_dec
         [barcode_729 (detected_features result);
          made_in_israel_text (detected_features result);
          hebrew_text (detected_features result);
          israeli_brand (detected_features result);
          kosher_certification (detected_features result)] true
  /\ (forall title,
         In title (dot_titles (history_item P total index result))
         <-> (title = "Barcode 729"
              /\ barcode_729 (detected_features result) = true)
             \/ (title = "Made In Israel Text"
                 /\ made_in_israel_text (detected_features result) = true)
             \/ (title = "Hebrew Text"
                 /\ hebrew_text (detected_features result) = true)
             \/ (title = "Israeli Brand"
                 /\ israeli_brand (detected_features result) = true)
             \/ (title = "Kosher Certification"
                 /\ kosher_certification (detected_features result) = true))
  /\ (In "No features detected" (texts (history_item P total index result))
      <-> dot_titles (history_item P total index result) = [])
  /\ (dot_titles (history_item P total index result) = []
      <-> barcode_729 (detected_features result) = false
          /\ made_in_israel_text (detected_features result) = false
          /\ hebrew_text (detected_features result) = false
          /\ israeli_brand (detected_features result) = false
          /\ kosher_certification (detected_features result) = false).
Proof.
  rewrite history_item_dot_titles, history_item_texts. split.
  { split.
    - intros Hin.
      apply in_app_or in Hin as [Hin|Hin].
      { simpl in Hin. intuition discriminate. }
      apply in_app_or in Hin as [Hin|Hin].
      { destruct (brand_info result); [eauto|destruct Hin]. }
      destruct (forallb _ _); simpl in Hin; intuition discriminate.
    - intros [info ->]. apply in_or_app. right. apply in_or_app. left. now left. }
  unfold feature_entries.
  destruct (detected_features result) as [b1 b2 b3 b4 b5]. cbn [barcode_729
    made_in_israel_text hebrew_text israeli_brand kosher_certification].
  split; [destruct b1, b2, b3, b4, b5; reflexivity|].
  split.
  { intros title. rewrite !in_app_iff.
    destruct b1, b2, b3, b4, b5; simpl; intuition congruence. }
  split.
  - destruct (brand_info result), b1, b2, b3, b4, b5; simpl;
      (split; [intros Hin; intuition discriminate|intros [=]; tauto]).
  - destruct b1, b2, b3, b4, b5; simpl;
      (split; [intros [=]; tauto|intros H; intuition discriminate]).
Qed.

(** Counting down. *)
Lemma countdown (n : nat) :
  map (fun j => n - j) (seq 0 n) = rev (seq 1 n).
Proof.
  induction n as [|n IH]; [reflexivity|].
  rewrite (seq_S n 1), rev_app_distr. simpl rev. simpl app.
  change (seq 0 (S n)) with (0 :: seq 1 n).
  rewrite <- seq_shift, map_cons, map_map. simpl. f_equal.
  rewrite seq_shift. exact IH.
Qed.

(** The second expression of a line is its number. *)
Lemma history_item_number (P : Platform) (total index : nat)
    (result : DetectionResult) :
  exprs (history_item P total index result) !! 1%nat
  = Some (pretty (total - index)).
Proof.
  unfold history_item, el. destruct (is_israeli_product result); reflexivity.
Qed.

(** X11. The list of the history panel has one line per entry, in the
    order of the history, and the lines are numbered downwards: the first
    line, the most recent entry, bears the number of entries, and the last
    line bears 1. *)
Theorem history_lines_numbered (P : Platform) (history : list DetectionResult) :
  history <> [] ->
  length (history_lines (DetectionHistory P history)) = length history
  /\ (forall i result,
         history !! i = Some result ->
         history_lines (DetectionHistory P history) !! i
         = Some (history_item P (length history) i result))
  /\ map (fun line => exprs line !! 1%nat)
       (history_lines (DetectionHistory P history))
     = map (fun k => Some (pretty k)) (rev (seq 1 (length history))).
Proof.
  intros Hne.
  assert (Hlines : history_lines (DetectionHistory P history)
                   = imap (history_item P (length history)) history).
  { unfold DetectionHistory.
    destruct (Nat.eqb_spec (length history) 0) as [H0|_]; [|reflexivity].
    destruct history; [congruence|discriminate]. }
  rewrite Hlines. split; [apply length_imap|]. split.
  - intros i result Hi. now rewrite list_lookup_imap, Hi.
  - rewrite <- countdown, map_map.
    change (map ?f (imap ?g ?l)) with (f <$> imap g l).
    rewrite fmap_imap.
    rewrite (imap_ext _ (fun j _ => Some (pretty (length history - j))))
      by (intros; apply history_item_number).
    now rewrite imap_seq_0.
Qed.

Lemma history_lines_numbered_witness :
  length (history_lines (DetectionHistory offline sample_history)) = 2
  /\ (forall i result,
         sample_history !! i = Some result ->
         history_lines (DetectionHistory offline sample_history) !! i
         = Some (history_item offline 2 i result))
  /\ map (fun line => exprs line !! 1%nat)
       (history_lines (DetectionHistory offline sample_history))
     = [Some "2"; Some "1"].
Proof.
  apply (history_lines_numbered offline sample_history). discriminate.
Defined.

End Components.

(* ===================================================================== *)
(** * More on the status panel: polls in a row *)
(* ===================================================================== *)

Section PollsInARow.

Import SystemStatus Polls.

(** What one poll does to each part of the state. *)
Lemma poll_fields (p : Poll) (st : State) :
  healthStatus (poll p st) = from_option id (healthStatus st) (health_update p)
  /\ modelInfo (poll p st) = from_option id (modelInfo st) (model_update p)
  /\ brandsCount (poll p st) = from_option id (brandsCount st) (count_update p)
  /\ isLoading (poll p st) = false.
Proof.
  unfold poll, fetchSystemStatus, health_update, model_update, count_update,
    fulfilled.
  destruct (health p) as [h|], (model p) as [m|], (brands p) as [b|];
    try (repeat split; reflexivity).
  destruct (success h), (success m), (success b), (data b);
    repeat split; reflexivity.
Qed.



(** X13. When a poll has settled, the spinner is gone. The error panel is
    shown exactly when one of the three promises was rejected or the
    answer on the brands is a success without data; a poll whose three
    answers are failures shows the status panel, drawn from what was
    stored before. *)
Theorem poll_view (p : Poll) (st : State) :
  render (poll p st)
  = match health p, model p, brands p with
    | Normal _, Normal _, Normal b =>
        match data b with
        | None => if success b then ErrorPanel "Gagal memuat status sistem"
                  else status_panel (poll p st)
        | Some _ => status_panel (poll p st)
        end
    | _, _, _ => ErrorPanel "Gagal memuat status sistem"
    end
  /\ (forall h m b,
         health p = Normal h -> model p = Normal m -> brands p = Normal b ->
         success h = false -> success m = false -> success b = false ->
         render (poll p st) = status_panel st).
Proof.
  destruct (poll_fields p st) as (_ & _ & _ & Hloading).
  pose proof (fetchSystemStatus_error st (health p) (model p) (brands p)) as Herror.
  fold (poll p st) in Herror.
  split.
  - unfold render. rewrite Hloading, Herror.
    destruct (health p), (model p), (brands p) as [b|]; try reflexivity.
    destruct (data b); [reflexivity|]. destruct (success b); reflexivity.
  - intros h m b Hh Hm Hb Hsh Hsm Hsb. unfold poll.
    rewrite Hh, Hm, Hb.
    rewrite (fetchSystemStatus_failures st h m b Hsh Hsm Hsb). reflexivity.
Qed.

Lemma poll_view_witness :
  render (poll {| health := Normal (failure "Failed to fetch");
                  model := Normal (failure "Failed to fetch");
                  brands := Normal (failure "Failed to fetch") |} healthy_state)
  = status_panel healthy_state.
Proof.
  apply (proj2 (poll_view {| health := Normal (failure "Failed to fetch");
                             model := Normal (failure "Failed to fetch");
                             brands := Normal (failure "Failed to fetch") |}
                  healthy_state)
           (failure "Failed to fetch") (failure "Failed to fetch")
           (failure "Failed to fetch"));
    reflexivity.
Defined.

End PollsInARow.
